(** * DIMOV-FINANCE: the partner financial allocation engine

    A shallow embedding of [calculateFinancials] and of the handlers, the
    period report and the save handlers of the views (App.tsx), of the
    records of types.ts and of the constants of constants.ts, followed by
    the properties of the engine.  The engine is embedded twice: on ledgers
    of the declared types, and on ledgers as they are loaded, whose payments
    may lack the distributions list.

    Numbers are JavaScript numbers, that is IEEE 754 binary64 values: they are
    modelled by Rocq's primitive [float], whose operations round to nearest,
    ties to even, exactly as the JavaScript operators do.  Equality on
    [float] is the identity of values ([+0] and [-0] differ, [NaN] is equal
    to itself); [=?] is the [===] of JavaScript.

    Arrays are lists.  The object [partnerExpenseMap] is a [gmap] from
    property names to numbers; reading a missing property gives [None],
    which stands for [undefined].  Partner ids are taken to be ordinary
    property names, not names of members of [Object.prototype] such as
    [__proto__] or [constructor], for which a JavaScript object is not a
    finite map.  The tables of the monthly aggregation and of the period
    report are keyed by text of the ledger; for them the inherited members
    are part of the model. *)

From Stdlib Require Import Floats.PrimFloat Floats.SpecFloat Floats.FloatOps Floats.FloatAxioms.
From Stdlib Require Import ZArith.
From Stdlib Require Uint63.
From stdpp Require Import gmap strings list.

Set Warnings "-inexact-float".
Set Default Proof Using "Type".
Open Scope float_scope.

(** ** The JavaScript operations the engine uses *)

Module JS.

Abbreviation number := float.

(** [ToBoolean] on a number: [+0], [-0] and [NaN] are falsy. *)
Definition truthy (x : number) : bool := negb (PrimFloat.is_zero x || PrimFloat.is_nan x).

(** [v || d] where [v] is a number or [undefined]. *)
Definition orElse (v : option number) (d : number) : number :=
  match v with
  | Some x => if truthy x then x else d
  | None => d
  end.

(** [ToNumber] on a number or [undefined]: [undefined] becomes [NaN]. *)
Definition toNumber (v : option number) : number :=
  match v with
  | Some x => x
  | None => nan
  end.

(** [Math.max], as ECMAScript defines it: start from [-Infinity]; a [NaN]
    argument makes the result [NaN]; [+0] is larger than [-0]. *)
Definition max_step (highest : option number) (x : number) : option number :=
  match highest with
  | None => None
  | Some h =>
      if is_nan x then None
      else if Leibniz.eqb x zero && Leibniz.eqb h neg_zero then Some zero
      else if h <? x then Some x
      else Some h
  end.

Definition Math_max (values : list number) : number :=
  match fold_left max_step values (Some neg_infinity) with
  | Some h => h
  | None => nan
  end.

(** [Array.prototype.reduce] with an initial value. *)
Definition reduce {A B : Type} (f : B -> A -> B) (init : B) (l : list A) : B :=
  fold_left f l init.

(** [array.length] as a number (exact below 2^53; an array has less than
    2^32 elements). *)
Definition length_of {A : Type} (l : list A) : number :=
  of_uint63 (Uint63.of_Z (Z.of_nat (length l))).

(** [a === b] on strings. *)
Definition str_eq (a b : string) : bool := String.eqb a b.

End JS.

Import JS.

(** ** types.ts *)

Variant ProjectType := construction | electrical.
Variant ProjectStatus := active | completed.

Module Partner.
Record t := mk { id : string; name : string; role : string }.
End Partner.
Abbreviation Partner := Partner.t.

Module Project.
Record t := mk {
  id : string;
  name : string;
  description : string;
  type : ProjectType;
  status : ProjectStatus;
  createdAt : string
}.
End Project.
Abbreviation Project := Project.t.

Module Distribution.
Record t := mk { partnerId : string; amount : number }.
End Distribution.
Abbreviation Distribution := Distribution.t.

Module Payment.
Record t := mk {
  id : string;
  projectId : string;
  date : string;
  description : string;
  totalAmount : number;
  distributions : list Distribution
}.
End Payment.
Abbreviation Payment := Payment.t.

(** The interface declares [distributions: Distribution[]], but the engine
    tests [!exp.distributions] before it reads the list, so that an expense
    record without the property is an input it provides for: [None]. *)
Module Expense.
Record t := mk {
  id : string;
  date : string;
  description : string;
  amount : number;
  category : string;
  distributions : option (list Distribution)
}.
End Expense.
Abbreviation Expense := Expense.t.

Module DividendPayout.
Record t := mk {
  id : string;
  partnerId : string;
  date : string;
  grossAmount : number;
  taxAmount : number;
  netReceived : number
}.
End DividendPayout.
Abbreviation DividendPayout := DividendPayout.t.

Module AppState.
Record t := mk {
  projects : list Project;
  payments : list Payment;
  expenses : list Expense;
  dividends : list DividendPayout
}.
End AppState.
Abbreviation AppState := AppState.t.

Module FinancialSummary.
Record t := mk {
  totalRevenue : number;
  totalExpenses : number;
  taxableProfit : number;
  corporateTax : number;
  netProfit : number
}.
End FinancialSummary.
Abbreviation FinancialSummary := FinancialSummary.t.

Module PartnerFinancials.
Record t := mk {
  partnerId : string;
  name : string;
  revenue : number;
  expenseShare : number;
  taxableBase : number;
  corporateTaxShare : number;
  netProfitShare : number;
  dividendsTakenGross : number;
  dividendTaxPaid : number;
  balance : number
}.
End PartnerFinancials.
Abbreviation PartnerFinancials := PartnerFinancials.t.

(** ** constants.ts *)

Module constants.

Definition PARTNERS : list Partner :=
  [ Partner.mk "p1" "Пламен Димов" "Управител";
    Partner.mk "p2" "Светлозар Димов" "Конструктор";
    Partner.mk "p3" "Димо Димов" "Електро проектант" ].

Definition INITIAL_STATE : AppState := AppState.mk [] [] [] [].

Definition TAX_RATE : number := 0.10.
Definition DIVIDEND_TAX_RATE : number := 0.05.

End constants.


(** ** The store the engine runs in

    [calculateFinancials] reaches three objects: the array [PARTNERS]
    imported from constants.ts, the [state] object it is called with, and
    the object [partnerExpenseMap] it allocates.  All three are mutable in
    JavaScript, so they live in a store that every statement threads.  A
    statement completes normally with a value or abruptly with a thrown
    error, and an abrupt completion skips the statements that follow.  The
    engine has no [throw] statement, and on values of the declared types
    none of the operations it uses throws: each primitive below completes
    normally. *)

Record Store := mkStore {
  st_PARTNERS : list Partner;
  st_state : AppState;
  st_partnerExpenseMap : gmap string number
}.

Variant Completion (A : Type) : Type :=
  | Normal (value : A)
  | Throw (error : string).
Arguments Normal {A} value.
Arguments Throw {A} error.

Definition M (A : Type) : Type := Store -> Completion A * Store.

Definition ret {A : Type} (a : A) : M A := fun s => (Normal a, s).

Definition bind {A B : Type} (m : M A) (k : A -> M B) : M B :=
  fun s =>
    match m s with
    | (Normal a, s') => k a s'
    | (Throw e, s') => (Throw e, s')
    end.

Notation "'let*' x ':=' m 'in' k" := (bind m (fun x => k))
  (at level 10, x name, m at level 100, k at level 200).
Notation "m ';;' k" := (bind m (fun _ => k))
  (at level 100, k at level 200, right associativity).

(** [state.payments], [state.expenses], [state.dividends] and [PARTNERS]:
    each read goes to the store. *)
Definition get_payments : M (list Payment) :=
  fun s => (Normal (AppState.payments (st_state s)), s).
Definition get_expenses : M (list Expense) :=
  fun s => (Normal (AppState.expenses (st_state s)), s).
Definition get_dividends : M (list DividendPayout) :=
  fun s => (Normal (AppState.dividends (st_state s)), s).
Definition get_PARTNERS : M (list Partner) :=
  fun s => (Normal (st_PARTNERS s), s).

(** [const partnerExpenseMap = {}]. *)
Definition new_partnerExpenseMap : M unit :=
  fun s => (Normal tt, mkStore (st_PARTNERS s) (st_state s) ∅).

(** [partnerExpenseMap[k]]. *)
Definition map_get (k : string) : M (option number) :=
  fun s => (Normal (st_partnerExpenseMap s !! k), s).

(** [partnerExpenseMap[k] = v]. *)
Definition map_set (k : string) (v : number) : M unit :=
  fun s => (Normal tt,
            mkStore (st_PARTNERS s) (st_state s) (<[k := v]> (st_partnerExpenseMap s))).

(** [array.forEach(f)] and [array.map(f)] with callbacks that run in the store. *)
Fixpoint forEach {A : Type} (l : list A) (f : A -> M unit) : M unit :=
  match l with
  | [] => ret tt
  | x :: l' => f x ;; forEach l' f
  end.

Fixpoint mapM {A B : Type} (l : list A) (f : A -> M B) : M (list B) :=
  match l with
  | [] => ret []
  | x :: l' => let* y := f x in let* ys := mapM l' f in ret (y :: ys)
  end.

(** ** App.tsx: calculateFinancials

    The two versions of App.tsx in the repository compute [summary] and
    [partnerStats] with the same statements; the later one also returns a
    monthly aggregation, which is left out here. *)

Module Financials.
Record t := mk {
  summary : FinancialSummary;
  partnerStats : list PartnerFinancials
}.
End Financials.
Abbreviation Financials := Financials.t.

(** The callback of [state.expenses.forEach]. *)
Definition expense_callback (exp : Expense) : M unit :=
  match Expense.distributions exp with
  | None | Some [] =>
      (* Fallback: split equally if no distribution data *)
      let* PARTNERS := get_PARTNERS in
      let share := Expense.amount exp / length_of PARTNERS in
      let* PARTNERS := get_PARTNERS in
      forEach PARTNERS (fun p =>
        let* old := map_get (Partner.id p) in
        map_set (Partner.id p) (toNumber old + share))
  | Some ds =>
      forEach ds (fun d =>
        let* old := map_get (Distribution.partnerId d) in
        map_set (Distribution.partnerId d) (orElse old 0 + Distribution.amount d))
  end.

(** The callback of [PARTNERS.map]. *)
Definition partner_callback (TAX_RATE : number) (partner : Partner) : M PartnerFinancials :=
  (* 1. Revenue *)
  let* payments := get_payments in
  let revenue :=
    reduce (fun sum p =>
      let dist := List.find (fun d => str_eq (Distribution.partnerId d) (Partner.id partner))
                            (Payment.distributions p) in
      sum + match dist with Some d => Distribution.amount d | None => 0 end)
      0 payments in
  (* 2. Expense Share *)
  let* entry := map_get (Partner.id partner) in
  let expenseShare := orElse entry 0 in
  (* 3. Taxable Base *)
  let taxableBase := revenue - expenseShare in
  (* 4. Corp Tax Share (only if positive) *)
  let corporateTaxShare := if 0 <? taxableBase then taxableBase * TAX_RATE else 0 in
  (* 5. Net Profit Share *)
  let netProfitShare := taxableBase - corporateTaxShare in
  (* 6. Dividends Taken *)
  let* dividends := get_dividends in
  let dividendsTaken :=
    reduce (fun sum d => sum + DividendPayout.grossAmount d) 0
      (List.filter (fun d => str_eq (DividendPayout.partnerId d) (Partner.id partner)) dividends) in
  let* dividends := get_dividends in
  let dividendTaxPaid :=
    reduce (fun sum d => sum + DividendPayout.taxAmount d) 0
      (List.filter (fun d => str_eq (DividendPayout.partnerId d) (Partner.id partner)) dividends) in
  (* 7. Balance *)
  let balance := netProfitShare - dividendsTaken in
  ret (PartnerFinancials.mk (Partner.id partner) (Partner.name partner)
         revenue expenseShare taxableBase corporateTaxShare netProfitShare
         dividendsTaken dividendTaxPaid balance).

Definition calculateFinancials (TAX_RATE : number) : M Financials :=
  let* payments := get_payments in
  let totalRevenue := reduce (fun sum p => sum + Payment.totalAmount p) 0 payments in
  let* expenses := get_expenses in
  let totalExpenses := reduce (fun sum e => sum + Expense.amount e) 0 expenses in
  let taxableProfit := Math_max [0; totalRevenue - totalExpenses] in
  let corporateTax := taxableProfit * TAX_RATE in
  let netProfit := totalRevenue - totalExpenses - corporateTax in
  new_partnerExpenseMap ;;
  let* PARTNERS := get_PARTNERS in
  forEach PARTNERS (fun p => map_set (Partner.id p) 0) ;;
  let* expenses := get_expenses in
  forEach expenses expense_callback ;;
  let* PARTNERS := get_PARTNERS in
  let* partnerStats := mapM PARTNERS (partner_callback TAX_RATE) in
  ret (Financials.mk
         (FinancialSummary.mk totalRevenue totalExpenses taxableProfit corporateTax netProfit)
         partnerStats).

(** The engine as the specification names it: called on a ledger, a roster
    and a corporate tax rate, it completes as [calculateFinancials] does when
    [state] is the ledger and [PARTNERS] the roster. *)
Definition computeFinancials (ledger : AppState) (roster : list Partner)
    (corporateRate : number) : Completion Financials :=
  fst (calculateFinancials corporateRate (mkStore roster ledger ∅)).

(** The content of [partnerExpenseMap] when the engine is done. *)
Definition partnerExpenseMap_after (ledger : AppState) (roster : list Partner)
    (corporateRate : number) : gmap string number :=
  st_partnerExpenseMap (snd (calculateFinancials corporateRate (mkStore roster ledger ∅))).

(** ** App.tsx: the handlers that append to the ledger

    [now] is the string [Date.now().toString()] evaluates to at the call;
    the function each handler passes to [setState] maps the previous state
    to the next. *)

Definition record_expense (newExpense : Expense) (prev : AppState) : AppState :=
  AppState.mk (AppState.projects prev) (AppState.payments prev)
    (AppState.expenses prev ++ [newExpense]) (AppState.dividends prev).

Definition addExpense (now : string) (desc : string) (amount : number) (date : string)
    (category : string) (distributions : list Distribution) (prev : AppState) : AppState :=
  record_expense (Expense.mk now date desc amount category (Some distributions)) prev.

Definition addDividend (DIVIDEND_TAX_RATE : number) (now : string)
    (partnerId : string) (grossAmount : number) (date : string)
    (prev : AppState) : AppState :=
  let tax := grossAmount * DIVIDEND_TAX_RATE in
  let net := grossAmount - tax in
  let newDiv := DividendPayout.mk now partnerId date grossAmount tax net in
  AppState.mk (AppState.projects prev) (AppState.payments prev)
    (AppState.expenses prev) (AppState.dividends prev ++ [newDiv]).

(** ** What the loops compute

    The content of [partnerExpenseMap] after each loop, as a fold over the
    array the loop walks, and the record each callback builds; the lemmas of
    the next part show that the engine computes exactly these. *)

Definition init_step (m : gmap string number) (p : Partner) : gmap string number :=
  <[Partner.id p := 0]> m.

Definition split_step (share : number) (m : gmap string number) (p : Partner)
    : gmap string number :=
  <[Partner.id p := toNumber (m !! Partner.id p) + share]> m.

Definition dist_step (m : gmap string number) (d : Distribution) : gmap string number :=
  <[Distribution.partnerId d :=
      orElse (m !! Distribution.partnerId d) 0 + Distribution.amount d]> m.

Definition expense_step (PARTNERS : list Partner) (m : gmap string number) (exp : Expense)
    : gmap string number :=
  match Expense.distributions exp with
  | None | Some [] =>
      fold_left (split_step (Expense.amount exp / length_of PARTNERS)) PARTNERS m
  | Some ds => fold_left dist_step ds m
  end.

Definition expense_map (PARTNERS : list Partner) (expenses : list Expense)
    : gmap string number :=
  fold_left (expense_step PARTNERS) expenses (fold_left init_step PARTNERS ∅).

(** What one payment contributes to the revenue of the partner [pid]. *)
Definition payment_share (pid : string) (p : Payment) : number :=
  match List.find (fun d => str_eq (Distribution.partnerId d) pid) (Payment.distributions p) with
  | Some d => Distribution.amount d
  | None => 0
  end.

(** The sum of a list of numbers, added from [0] in the order of the list. *)
Definition sum_of (l : list number) : number := fold_left add l 0.

Definition dividends_of (pid : string) (dividends : list DividendPayout)
    : list DividendPayout :=
  List.filter (fun d => str_eq (DividendPayout.partnerId d) pid) dividends.

Definition summary_of (TAX_RATE : number) (state : AppState) : FinancialSummary :=
  let totalRevenue := sum_of (map Payment.totalAmount (AppState.payments state)) in
  let totalExpenses := sum_of (map Expense.amount (AppState.expenses state)) in
  let taxableProfit := Math_max [0; totalRevenue - totalExpenses] in
  let corporateTax := taxableProfit * TAX_RATE in
  FinancialSummary.mk totalRevenue totalExpenses taxableProfit corporateTax
    (totalRevenue - totalExpenses - corporateTax).

Definition statement_of (TAX_RATE : number) (state : AppState)
    (m : gmap string number) (partner : Partner) : PartnerFinancials :=
  let revenue := sum_of (map (payment_share (Partner.id partner)) (AppState.payments state)) in
  let expenseShare := orElse (m !! Partner.id partner) 0 in
  let taxableBase := revenue - expenseShare in
  let corporateTaxShare := if 0 <? taxableBase then taxableBase * TAX_RATE else 0 in
  let netProfitShare := taxableBase - corporateTaxShare in
  let mine := dividends_of (Partner.id partner) (AppState.dividends state) in
  let dividendsTaken := sum_of (map DividendPayout.grossAmount mine) in
  PartnerFinancials.mk (Partner.id partner) (Partner.name partner)
    revenue expenseShare taxableBase corporateTaxShare netProfitShare
    dividendsTaken (sum_of (map DividendPayout.taxAmount mine))
    (netProfitShare - dividendsTaken).

Definition financials_of (TAX_RATE : number) (PARTNERS : list Partner) (state : AppState)
    : Financials :=
  Financials.mk (summary_of TAX_RATE state)
    (map (statement_of TAX_RATE state (expense_map PARTNERS (AppState.expenses state)))
         PARTNERS).

(** ** Vocabulary of the properties *)

(** The entries of a distributions list that name the partner [pid]. *)
Definition entries_for (pid : string) (ds : list Distribution) : list Distribution :=
  List.filter (fun d => str_eq (Distribution.partnerId d) pid) ds.

(** Adding the amounts of [ds], in order, to the property value [v], the way
    the explicit branch of the expense loop does: [(v || 0) + d.amount]. *)
Definition add_entries (v : option number) (ds : list Distribution) : option number :=
  fold_left (fun v d => Some (orElse v 0 + Distribution.amount d)) ds v.

(** Whether [pid] is the id of a roster partner, and the entries of a
    distributions list that name roster partners. *)
Definition in_roster (roster : list Partner) (pid : string) : bool :=
  existsb (fun p => str_eq (Partner.id p) pid) roster.

Definition on_roster (roster : list Partner) (ds : list Distribution) : list Distribution :=
  List.filter (fun d => in_roster roster (Distribution.partnerId d)) ds.

(** The first entry of each partner in a distributions list. *)
Fixpoint first_entries (seen : list string) (ds : list Distribution) : list Distribution :=
  match ds with
  | [] => []
  | d :: ds' =>
      if existsb (str_eq (Distribution.partnerId d)) seen
      then first_entries seen ds'
      else d :: first_entries (Distribution.partnerId d :: seen) ds'
  end.

(** A record with another distributions list. *)
Definition payment_with (ds : list Distribution) (p : Payment) : Payment :=
  Payment.mk (Payment.id p) (Payment.projectId p) (Payment.date p)
    (Payment.description p) (Payment.totalAmount p) ds.

Definition expense_with (ds : option (list Distribution)) (e : Expense) : Expense :=
  Expense.mk (Expense.id e) (Expense.date e) (Expense.description e)
    (Expense.amount e) (Expense.category e) ds.

Definition with_payments (ps : list Payment) (ledger : AppState) : AppState :=
  AppState.mk (AppState.projects ledger) ps (AppState.expenses ledger)
    (AppState.dividends ledger).

Definition with_expenses (es : list Expense) (ledger : AppState) : AppState :=
  AppState.mk (AppState.projects ledger) (AppState.payments ledger) es
    (AppState.dividends ledger).

(** Two ledgers that differ at most in the distributions lists of their
    payments and expenses. *)
Definition redistributed (l l' : AppState) : Prop :=
  Forall2 (fun p p' => ∃ ds, p' = payment_with ds p)
    (AppState.payments l) (AppState.payments l')
  ∧ Forall2 (fun e e' => ∃ ds, e' = expense_with ds e)
      (AppState.expenses l) (AppState.expenses l').

(** Two ledgers that differ at most in the entries that name partners outside
    the roster: such entries are added, removed or changed in the payments,
    and in the expenses whose list is not empty on either side. *)
Definition same_payment_on (roster : list Partner) (p p' : Payment) : Prop :=
  ∃ ds, p' = payment_with ds p
        ∧ on_roster roster ds = on_roster roster (Payment.distributions p).

Definition same_expense_on (roster : list Partner) (e e' : Expense) : Prop :=
  e' = e
  ∨ ∃ d ds d' ds',
      Expense.distributions e = Some (d :: ds)
      ∧ e' = expense_with (Some (d' :: ds')) e
      ∧ on_roster roster (d' :: ds') = on_roster roster (d :: ds).

Definition same_on_roster (roster : list Partner) (l l' : AppState) : Prop :=
  Forall2 (same_payment_on roster) (AppState.payments l) (AppState.payments l')
  ∧ Forall2 (same_expense_on roster) (AppState.expenses l) (AppState.expenses l')
  ∧ AppState.dividends l' = AppState.dividends l.

(** Two contents of [partnerExpenseMap] with the same properties at the
    roster ids. *)
Definition agree (roster : list Partner) (m m' : gmap string number) : Prop :=
  ∀ k, in_roster roster k = true → m !! k = m' !! k.

(** ** The engine on a ledger as it is loaded

    The ledger the application runs on is what [JSON.parse] gave for the
    saved or the imported text; nothing checks it against the interfaces of
    types.ts.  The engine itself provides for an expense without
    [distributions].  For a payment it calls [p.distributions.find] with no
    test, and a property access on [undefined] throws a TypeError.  This is
    [calculateFinancials] once more, statement by statement, on ledgers
    whose payments may lack the list. *)

Module RawPayment.
Record t := mk {
  id : string;
  projectId : string;
  date : string;
  description : string;
  totalAmount : number;
  distributions : option (list Distribution)
}.
End RawPayment.
Abbreviation RawPayment := RawPayment.t.

Module RawState.
Record t := mk {
  projects : list Project;
  payments : list RawPayment;
  expenses : list Expense;
  dividends : list DividendPayout
}.
End RawState.
Abbreviation RawState := RawState.t.

Module Runtime.

Record Store := mkStore {
  st_PARTNERS : list Partner;
  st_state : RawState;
  st_partnerExpenseMap : gmap string number
}.

Definition M (A : Type) : Type := Store -> Completion A * Store.

Definition ret {A : Type} (a : A) : M A := fun s => (Normal a, s).

Definition throw {A : Type} (error : string) : M A := fun s => (Throw error, s).

Definition bind {A B : Type} (m : M A) (k : A -> M B) : M B :=
  fun s =>
    match m s with
    | (Normal a, s') => k a s'
    | (Throw e, s') => (Throw e, s')
    end.

Declare Scope runtime_scope.
Notation "'let*' x ':=' m 'in' k" := (bind m (fun x => k))
  (at level 10, x name, m at level 100, k at level 200) : runtime_scope.
Notation "m ';;' k" := (bind m (fun _ => k))
  (at level 100, k at level 200, right associativity) : runtime_scope.
#[local] Open Scope runtime_scope.

Definition get_payments : M (list RawPayment) :=
  fun s => (Normal (RawState.payments (st_state s)), s).
Definition get_expenses : M (list Expense) :=
  fun s => (Normal (RawState.expenses (st_state s)), s).
Definition get_dividends : M (list DividendPayout) :=
  fun s => (Normal (RawState.dividends (st_state s)), s).
Definition get_PARTNERS : M (list Partner) :=
  fun s => (Normal (st_PARTNERS s), s).

Definition new_partnerExpenseMap : M unit :=
  fun s => (Normal tt, mkStore (st_PARTNERS s) (st_state s) ∅).

Definition map_get (k : string) : M (option number) :=
  fun s => (Normal (st_partnerExpenseMap s !! k), s).

Definition map_set (k : string) (v : number) : M unit :=
  fun s => (Normal tt,
            mkStore (st_PARTNERS s) (st_state s) (<[k := v]> (st_partnerExpenseMap s))).

Fixpoint forEach {A : Type} (l : list A) (f : A -> M unit) : M unit :=
  match l with
  | [] => ret tt
  | x :: l' => f x ;; forEach l' f
  end.

Fixpoint mapM {A B : Type} (l : list A) (f : A -> M B) : M (list B) :=
  match l with
  | [] => ret []
  | x :: l' => let* y := f x in let* ys := mapM l' f in ret (y :: ys)
  end.

(** [array.reduce(f, init)] with a callback that may throw. *)
Fixpoint reduceM {A B : Type} (f : B -> A -> M B) (init : B) (l : list A) : M B :=
  match l with
  | [] => ret init
  | x :: l' => let* acc := f init x in reduceM f acc l'
  end.

(** [p.distributions.find(pred)]. *)
Definition distributions_find (pred : Distribution -> bool) (p : RawPayment)
    : M (option Distribution) :=
  match RawPayment.distributions p with
  | Some ds => ret (List.find pred ds)
  | None => throw "TypeError"
  end.

Definition expense_callback (exp : Expense) : M unit :=
  match Expense.distributions exp with
  | None | Some [] =>
      let* PARTNERS := get_PARTNERS in
      let share := Expense.amount exp / length_of PARTNERS in
      let* PARTNERS := get_PARTNERS in
      forEach PARTNERS (fun p =>
        let* old := map_get (Partner.id p) in
        map_set (Partner.id p) (toNumber old + share))
  | Some ds =>
      forEach ds (fun d =>
        let* old := map_get (Distribution.partnerId d) in
        map_set (Distribution.partnerId d) (orElse old 0 + Distribution.amount d))
  end.

Definition partner_callback (TAX_RATE : number) (partner : Partner) : M PartnerFinancials :=
  (* 1. Revenue *)
  let* payments := get_payments in
  let* revenue :=
    reduceM (fun sum p =>
      let* dist :=
        distributions_find
          (fun d => str_eq (Distribution.partnerId d) (Partner.id partner)) p in
      ret (sum + match dist with Some d => Distribution.amount d | None => 0 end))
      0 payments in
  (* 2. Expense Share *)
  let* entry := map_get (Partner.id partner) in
  let expenseShare := orElse entry 0 in
  (* 3. Taxable Base *)
  let taxableBase := revenue - expenseShare in
  (* 4. Corp Tax Share (only if positive) *)
  let corporateTaxShare := if 0 <? taxableBase then taxableBase * TAX_RATE else 0 in
  (* 5. Net Profit Share *)
  let netProfitShare := taxableBase - corporateTaxShare in
  (* 6. Dividends Taken *)
  let* dividends := get_dividends in
  let dividendsTaken :=
    reduce (fun sum d => sum + DividendPayout.grossAmount d) 0
      (List.filter (fun d => str_eq (DividendPayout.partnerId d) (Partner.id partner)) dividends) in
  let* dividends := get_dividends in
  let dividendTaxPaid :=
    reduce (fun sum d => sum + DividendPayout.taxAmount d) 0
      (List.filter (fun d => str_eq (DividendPayout.partnerId d) (Partner.id partner)) dividends) in
  (* 7. Balance *)
  let balance := netProfitShare - dividendsTaken in
  ret (PartnerFinancials.mk (Partner.id partner) (Partner.name partner)
         revenue expenseShare taxableBase corporateTaxShare netProfitShare
         dividendsTaken dividendTaxPaid balance).

Definition calculateFinancials (TAX_RATE : number) : M Financials :=
  let* payments := get_payments in
  let totalRevenue := reduce (fun sum p => sum + RawPayment.totalAmount p) 0 payments in
  let* expenses := get_expenses in
  let totalExpenses := reduce (fun sum e => sum + Expense.amount e) 0 expenses in
  let taxableProfit := Math_max [0; totalRevenue - totalExpenses] in
  let corporateTax := taxableProfit * TAX_RATE in
  let netProfit := totalRevenue - totalExpenses - corporateTax in
  new_partnerExpenseMap ;;
  let* PARTNERS := get_PARTNERS in
  forEach PARTNERS (fun p => map_set (Partner.id p) 0) ;;
  let* expenses := get_expenses in
  forEach expenses expense_callback ;;
  let* PARTNERS := get_PARTNERS in
  let* partnerStats := mapM PARTNERS (partner_callback TAX_RATE) in
  ret (Financials.mk
         (FinancialSummary.mk totalRevenue totalExpenses taxableProfit corporateTax netProfit)
         partnerStats).

Definition computeFinancials (ledger : RawState) (roster : list Partner)
    (corporateRate : number) : Completion Financials :=
  fst (calculateFinancials corporateRate (mkStore roster ledger ∅)).

End Runtime.

(** Whether every payment of a loaded ledger has a distributions list, and
    the ledger of the declared types that a loaded ledger is then; a payment
    without a list is given the empty one. *)
Definition has_list (p : RawPayment) : bool :=
  match RawPayment.distributions p with
  | Some _ => true
  | None => false
  end.

Definition has_lists (r : RawState) : bool := forallb has_list (RawState.payments r).

Definition typed_payment (p : RawPayment) : Payment :=
  Payment.mk (RawPayment.id p) (RawPayment.projectId p) (RawPayment.date p)
    (RawPayment.description p) (RawPayment.totalAmount p)
    (match RawPayment.distributions p with Some ds => ds | None => [] end).

Definition typed (r : RawState) : AppState :=
  AppState.mk (RawState.projects r) (map typed_payment (RawState.payments r))
    (RawState.expenses r) (RawState.dividends r).

Definition raw_payment_with (ds : option (list Distribution)) (p : RawPayment) : RawPayment :=
  RawPayment.mk (RawPayment.id p) (RawPayment.projectId p) (RawPayment.date p)
    (RawPayment.description p) (RawPayment.totalAmount p) ds.

(** Two loaded ledgers that differ at most in the distributions lists of
    their records, where each payment of the second has a list and an
    expense of the second may have none. *)
Definition relisted (r r' : RawState) : Prop :=
  Forall2 (fun p p' => ∃ ds, p' = raw_payment_with (Some ds) p)
    (RawState.payments r) (RawState.payments r')
  ∧ Forall2 (fun e e' => ∃ ds, e' = expense_with ds e)
      (RawState.expenses r) (RawState.expenses r').

(** ** Sample ledgers *)

Module Samples.

Definition pay (total : number) (ds : list Distribution) : Payment :=
  Payment.mk "1700000000000" "1690000000000" "2024-01-15" "invoice" total ds.

Definition cost (amount : number) (ds : option (list Distribution)) : Expense :=
  Expense.mk "1700000000001" "2024-01-20" "rent" amount "Наем" ds.

Definition share (pid : string) (amount : number) : Distribution :=
  Distribution.mk pid amount.

(** Revenue 50 attributed to p1, one expense of 100 without a list. *)
Definition loss : AppState :=
  AppState.mk [] [pay 50 [share "p1" 50]] [cost 100 None] [].

(** One expense of 90 with an empty list. *)
Definition rent90 : AppState :=
  AppState.mk [] [] [cost 90 (Some [])] [].

(** p1 earns 10000/9, which leaves 1000 after tax, and draws 1200. *)
Definition overdrawn : AppState :=
  AppState.mk [] [pay 1111.1111111111111 [share "p1" 1111.1111111111111]] []
    [DividendPayout.mk "1700000000002" "p1" "2024-02-01" 1200 60 1140].

(** A payment and an expense that each name p1 twice. *)
Definition twice : AppState :=
  AppState.mk []
    [pay 150 [share "p1" 100; share "p1" 50]]
    [cost 150 (Some [share "p1" 100; share "p1" 50])] [].

(** The same with the second entries removed. *)
Definition once : AppState :=
  AppState.mk []
    [pay 150 [share "p1" 100]]
    [cost 150 (Some [share "p1" 100])] [].

(** A payment and an expense with entries for a partner that is not in the
    roster, and the same ledger with other such entries. *)
Definition stranger : AppState :=
  AppState.mk []
    [pay 300 [share "p9" 200; share "p2" 100]]
    [cost 80 (Some [share "p9" 80])] [].

Definition stranger' : AppState :=
  AppState.mk []
    [pay 300 [share "p2" 100]]
    [cost 80 (Some [share "p7" 1; share "p8" 2])] [].

(** A payment of 50 that has no distributions list, as a ledger saved
    without it has; and the same payment with a list. *)
Definition raw_pay (total : number) (ds : option (list Distribution)) : RawPayment :=
  RawPayment.mk "1700000000000" "1690000000000" "2024-01-15" "invoice" total ds.

Definition unlisted : RawState :=
  RawState.mk [] [raw_pay 50 None] [cost 100 None] [].

Definition listed : RawState :=
  RawState.mk [] [raw_pay 50 (Some [share "p1" 50])] [cost 100 None] [].

End Samples.

(** ** App.tsx: the other handlers

    [addProject] and [addPayment] are the same in the two versions of
    App.tsx; [createdAt] is the string [new Date().toISOString()] evaluates
    to.  [deleteProject] is the function the delete button of the projects
    view passes to [setState]. *)

Definition addProject (now createdAt : string) (name desc : string) (type : ProjectType)
    (prev : AppState) : AppState :=
  match name with
  | EmptyString => prev
  | _ =>
      let newProject := Project.mk now name desc type active createdAt in
      AppState.mk (AppState.projects prev ++ [newProject]) (AppState.payments prev)
        (AppState.expenses prev) (AppState.dividends prev)
  end.

Definition addPayment (now : string) (projectId : string) (total : number) (date : string)
    (desc : string) (dists : list Distribution) (prev : AppState) : AppState :=
  let newPayment := Payment.mk now projectId date desc total dists in
  AppState.mk (AppState.projects prev) (AppState.payments prev ++ [newPayment])
    (AppState.expenses prev) (AppState.dividends prev).

Definition deleteProject (projectToDelete : string) (prev : AppState) : AppState :=
  AppState.mk
    (List.filter (fun pr => negb (str_eq (Project.id pr) projectToDelete))
       (AppState.projects prev))
    (AppState.payments prev) (AppState.expenses prev) (AppState.dividends prev).

(** ** Plain objects used as tables

    [monthlyMap], [byProject] and [byCategory] are created as [{}] and
    indexed by strings taken from the ledger (a month, a project name, a
    category): any string can be a key.  Such an object inherits the members
    of [Object.prototype], and reading a name it does not own finds the
    inherited member.  What [Object.prototype] holds is a parameter of the
    model, [inherits]: a name is not inherited, or it names a member that is
    a function or an object (truthy; [text] is the string it converts to
    when it is added to a number), or it names such a member that is read
    through a getter and whose setter ignores a value that is not an object,
    as [__proto__] is.  A table is the finite map of the properties the
    object owns.  The application itself adds no member that could be read
    here: the writes that land on the prototype, or on one of its functions,
    store [NaN] under [income] or [expense], and [NaN] is falsy, so these
    names still read as not inherited. *)

Variant Inherited :=
  | NotInherited
  | Member (text : string)
  | Accessor (text : string).

(** The value of a property of [byProject] or [byCategory]: a number, or the
    string that adding a number to a string or to an inherited member
    gives. *)
Variant Cell :=
  | Num (n : number)
  | Str (s : string).

(** [!s] on a string: only the empty string is falsy. *)
Definition is_empty (s : string) : bool :=
  match s with
  | EmptyString => true
  | _ => false
  end.

(** ** App.tsx (later version): the monthly aggregation of calculateFinancials

    [monthlyMap] is a table whose properties are row objects; a row is
    created the first time its month is met, unless the month names an
    inherited member, and updated in place afterwards.  When the table owns
    no row for the month, [monthlyMap[month].income += ...] writes on the
    inherited member and leaves the table as it is.  [month_of] stands for
    [date.substring(0, 7)].  The array [monthlyData] that the function
    returns holds the rows of [monthlyMap], sorted by [localeCompare] on
    their names; the order is not modelled. *)

Module MonthRow.
Record t := mk { name : string; income : number; expense : number }.
End MonthRow.
Abbreviation MonthRow := MonthRow.t.

Section Monthly.

Variable inherits : string -> Inherited.
Variable month_of : string -> string.

(** [if (!monthlyMap[month]) monthlyMap[month] = { name: month, income: 0, expense: 0 }]. *)
Definition month_init (month : string) (m : gmap string MonthRow) : gmap string MonthRow :=
  match m !! month with
  | Some _ => m
  | None =>
      match inherits month with
      | NotInherited => <[month := MonthRow.mk month 0 0]> m
      | Member _ | Accessor _ => m
      end
  end.

Definition month_payment_step (m : gmap string MonthRow) (p : Payment)
    : gmap string MonthRow :=
  let month := month_of (Payment.date p) in
  alter (fun r => MonthRow.mk (MonthRow.name r) (MonthRow.income r + Payment.totalAmount p)
                    (MonthRow.expense r))
    month (month_init month m).

Definition month_expense_step (m : gmap string MonthRow) (e : Expense)
    : gmap string MonthRow :=
  let month := month_of (Expense.date e) in
  alter (fun r => MonthRow.mk (MonthRow.name r) (MonthRow.income r)
                    (MonthRow.expense r + Expense.amount e))
    month (month_init month m).

Definition monthlyMap (state : AppState) : gmap string MonthRow :=
  fold_left month_expense_step (AppState.expenses state)
    (fold_left month_payment_step (AppState.payments state) ∅).

End Monthly.

(** ** App.tsx (later version): the period report of ReportsView

    [str_ge a b] and [str_le a b] stand for [a >= b] and [a <= b] on
    strings, and [show] for the conversion of a number to a string. *)

Module PeriodData.
Record t := mk {
  revenue : number;
  expenseTotal : number;
  profitBeforeTax : number;
  tax : number;
  netProfit : number;
  byProject : gmap string Cell;
  byCategory : gmap string Cell;
  dividendTax : number
}.
End PeriodData.
Abbreviation PeriodData := PeriodData.t.

(** [state.projects.find(proj => proj.id === p.projectId)?.name || 'Неизвестен']. *)
Definition project_label (projects : list Project) (projectId : string) : string :=
  match List.find (fun proj => str_eq (Project.id proj) projectId) projects with
  | Some proj =>
      match Project.name proj with
      | EmptyString => "Неизвестен"
      | name => name
      end
  | None => "Неизвестен"
  end.

Section Period.

Variable inherits : string -> Inherited.
Variable show : number -> string.
Variables (str_ge str_le : string -> string -> bool).

(** [(totals[key] || 0) + amount], given what the table owns at [key] and
    what the key inherits; [None] when the assignment of that value creates
    no property. *)
Definition next_cell (inherited : Inherited) (current : option Cell) (amount : number)
    : option Cell :=
  match current with
  | Some (Num v) => Some (Num (orElse (Some v) 0 + amount))
  | Some (Str s) =>
      if is_empty s then Some (Num (0 + amount))
      else Some (Str (String.append s (show amount)))
  | None =>
      match inherited with
      | NotInherited => Some (Num (0 + amount))
      | Member text => Some (Str (String.append text (show amount)))
      | Accessor _ => None
      end
  end.

(** [totals[key] = (totals[key] || 0) + amount]. *)
Definition add_to (key : string) (amount : number) (totals : gmap string Cell)
    : gmap string Cell :=
  match next_cell (inherits key) (totals !! key) amount with
  | Some cell => <[key := cell]> totals
  | None => totals
  end.

Definition in_period (startDate endDate : string) (date : string) : bool :=
  str_ge date startDate && str_le date endDate.

Definition periodData (state : AppState) (startDate endDate : string) : PeriodData :=
  let payments :=
    List.filter (fun p => in_period startDate endDate (Payment.date p))
      (AppState.payments state) in
  let expenses :=
    List.filter (fun e => in_period startDate endDate (Expense.date e))
      (AppState.expenses state) in
  let dividendTaxes :=
    List.filter (fun d => in_period startDate endDate (DividendPayout.date d))
      (AppState.dividends state) in
  let revenue := reduce (fun sum p => sum + Payment.totalAmount p) 0 payments in
  let expenseTotal := reduce (fun sum e => sum + Expense.amount e) 0 expenses in
  let profitBeforeTax := revenue - expenseTotal in
  let tax := if 0 <? profitBeforeTax then profitBeforeTax * 0.10 else 0 in
  let netProfit := profitBeforeTax - tax in
  let dividendTax := reduce (fun sum d => sum + DividendPayout.taxAmount d) 0 dividendTaxes in
  let byProject :=
    fold_left (fun totals p =>
                 add_to (project_label (AppState.projects state) (Payment.projectId p))
                   (Payment.totalAmount p) totals)
      payments ∅ in
  let byCategory :=
    fold_left (fun totals e => add_to (Expense.category e) (Expense.amount e) totals)
      expenses ∅ in
  PeriodData.mk revenue expenseTotal profitBeforeTax tax netProfit byProject byCategory
    dividendTax.

End Period.

(** [Object.prototype] as ECMAScript defines it, with the text V8 gives for
    its functions. *)
Definition Object_prototype (key : string) : Inherited :=
  if str_eq key "__proto__" then Accessor "[object Object]"
  else if str_eq key "constructor" then Member "function Object() { [native code] }"
  else if existsb (str_eq key)
            ["toString"; "toLocaleString"; "valueOf"; "hasOwnProperty"; "isPrototypeOf";
             "propertyIsEnumerable"; "__defineGetter__"; "__defineSetter__";
             "__lookupGetter__"; "__lookupSetter__"]
  then Member (String.append "function " (String.append key "() { [native code] }"))
  else NotInherited.

(** ** App.tsx (later version): the save handlers of the entry views

    A view keeps what the user typed in its React state: the records below.
    [parseFloat] is the JavaScript function of that name.  A handler maps the
    state of its view and the ledger to the next ones and to the messages it
    shows with [alert]. *)

Variant Currency := BGN | EUR.

Definition EXCHANGE_RATE_EUR : number := 1.95583.

Variant ExpenseDistType := general | plamen_svetlo | individual.

Module ExpenseForm.
Record t := mk {
  desc : string;
  amount : string;
  currency : Currency;
  date : string;
  category : string;
  distType : ExpenseDistType;
  selectedPartner : string
}.
End ExpenseForm.
Abbreviation ExpenseForm := ExpenseForm.t.

Module DividendForm.
Record t := mk {
  selectedPid : string;
  grossAmount : string;
  currency : Currency;
  date : string
}.
End DividendForm.
Abbreviation DividendForm := DividendForm.t.

(** [splits] is given by [Object.entries(splits)], the properties of the
    object in enumeration order. *)
Module IncomeForm.
Record t := mk {
  projectId : string;
  amount : string;
  currency : Currency;
  desc : string;
  date : string;
  splits : list (string * string)
}.
End IncomeForm.
Abbreviation IncomeForm := IncomeForm.t.

Section Views.

Variable parseFloat : string -> number.

Definition rate_of (currency : Currency) : number :=
  match currency with
  | EUR => EXCHANGE_RATE_EUR
  | BGN => 1
  end.

(** ExpensesView: [handleSave]. *)
Definition ExpensesView_handleSave (now : string) (form : ExpenseForm) (state : AppState)
    : ExpenseForm * AppState * list string :=
  let inputVal := parseFloat (ExpenseForm.amount form) in
  if negb (truthy inputVal) || is_empty (ExpenseForm.desc form) then (form, state, [])
  else
    let rate := rate_of (ExpenseForm.currency form) in
    let finalValInBgn := inputVal * rate in
    let distributions :=
      match ExpenseForm.distType form with
      | plamen_svetlo =>
          let half := finalValInBgn / 2 in
          [Distribution.mk "p1" half; Distribution.mk "p2" half]
      | general => []
      | individual => [Distribution.mk (ExpenseForm.selectedPartner form) finalValInBgn]
      end in
    (ExpenseForm.mk "" "" BGN (ExpenseForm.date form) (ExpenseForm.category form)
       (ExpenseForm.distType form) (ExpenseForm.selectedPartner form),
     addExpense now (ExpenseForm.desc form) finalValInBgn (ExpenseForm.date form)
       (ExpenseForm.category form) distributions state,
     ["Разходът е записан!"]).

(** DividendsView: [handlePay]. *)
Definition DividendsView_handlePay (now : string) (form : DividendForm) (state : AppState)
    : DividendForm * AppState * list string :=
  let inputVal := parseFloat (DividendForm.grossAmount form) in
  if negb (truthy inputVal) then (form, state, [])
  else
    let rate := rate_of (DividendForm.currency form) in
    let finalValInBgn := inputVal * rate in
    (DividendForm.mk (DividendForm.selectedPid form) "" BGN (DividendForm.date form),
     addDividend constants.DIVIDEND_TAX_RATE now (DividendForm.selectedPid form)
       finalValInBgn (DividendForm.date form) state,
     ["Дивидентът е записан успешно!"]).

(** IncomeView: the figures computed at each render, and [handleSave].
    [confirmed] is what [window.confirm] returns if it is asked. *)
Definition currentDistributed (form : IncomeForm) : number :=
  reduce (fun a b => a + orElse (Some (parseFloat b)) 0) 0
    (map snd (IncomeForm.splits form)).

Definition totalInput (form : IncomeForm) : number :=
  orElse (Some (parseFloat (IncomeForm.amount form))) 0.

Definition remaining (form : IncomeForm) : number :=
  totalInput form - currentDistributed form.

Definition isBalanced (form : IncomeForm) : bool :=
  abs (remaining form) <? 0.1.

Definition income_distributions (form : IncomeForm) : list Distribution :=
  let rate := rate_of (IncomeForm.currency form) in
  List.filter (fun d => 0 <? Distribution.amount d)
    (map (fun entry =>
            let val := orElse (Some (parseFloat (snd entry))) 0 in
            Distribution.mk (fst entry) (val * rate))
         (IncomeForm.splits form)).

Definition IncomeView_handleSave (now : string) (confirmed : bool) (form : IncomeForm)
    (state : AppState) : IncomeForm * AppState * list string :=
  let totalInputVal := orElse (Some (parseFloat (IncomeForm.amount form))) 0 in
  let rate := rate_of (IncomeForm.currency form) in
  let totalInBgn := totalInputVal * rate in
  let distributions := income_distributions form in
  if negb (isBalanced form) && negb confirmed then (form, state, [])
  else
    (IncomeForm.mk (IncomeForm.projectId form) "" BGN "" (IncomeForm.date form) [],
     addPayment now (IncomeForm.projectId form) totalInBgn (IncomeForm.date form)
       (IncomeForm.desc form) distributions state,
     ["Приходът е записан успешно (конвертиран в BGN)!"]).

End Views.

(** * Properties *)

(** ** Running the loops *)

Lemma store_eta (s : Store) :
  mkStore (st_PARTNERS s) (st_state s) (st_partnerExpenseMap s) = s.
Proof. by destruct s. Qed.

Lemma forEach_fold {A : Type} (f : A -> M unit)
    (g : list Partner -> gmap string number -> A -> gmap string number) (l : list A) :
  (∀ x s, f x s
          = (Normal tt, mkStore (st_PARTNERS s) (st_state s)
                          (g (st_PARTNERS s) (st_partnerExpenseMap s) x))) →
  ∀ s, forEach l f s
       = (Normal tt, mkStore (st_PARTNERS s) (st_state s)
                       (fold_left (g (st_PARTNERS s)) l (st_partnerExpenseMap s))).
Proof.
  intros Hf. induction l as [|x l IH]; intros s; simpl.
  - unfold ret. by rewrite store_eta.
  - unfold bind. rewrite Hf, IH. reflexivity.
Qed.

Lemma mapM_pure {A B : Type} (f : A -> M B) (h : Store -> A -> B) (l : list A) :
  (∀ x s, f x s = (Normal (h s x), s)) →
  ∀ s, mapM l f s = (Normal (map (h s) l), s).
Proof.
  intros Hf. induction l as [|x l IH]; intros s; simpl; [done|].
  unfold bind. rewrite Hf, IH. reflexivity.
Qed.

Lemma reduce_sum_of {A : Type} (f : A -> number) (l : list A) :
  reduce (fun sum x => sum + f x) 0 l = sum_of (map f l).
Proof.
  unfold reduce, sum_of. generalize 0.
  induction l as [|x l IH]; intros acc; simpl; [done|]. apply IH.
Qed.

Lemma expense_callback_run (exp : Expense) (s : Store) :
  expense_callback exp s
  = (Normal tt, mkStore (st_PARTNERS s) (st_state s)
                  (expense_step (st_PARTNERS s) (st_partnerExpenseMap s) exp)).
Proof.
  unfold expense_callback, expense_step.
  destruct (Expense.distributions exp) as [[|d ds]|].
  - unfold bind, get_PARTNERS.
    by rewrite (forEach_fold _
         (fun _ => split_step (Expense.amount exp / length_of (st_PARTNERS s)))).
  - by rewrite (forEach_fold _ (fun _ => dist_step)).
  - unfold bind, get_PARTNERS.
    by rewrite (forEach_fold _
         (fun _ => split_step (Expense.amount exp / length_of (st_PARTNERS s)))).
Qed.

Lemma partner_callback_run (TAX_RATE : number) (partner : Partner) (s : Store) :
  partner_callback TAX_RATE partner s
  = (Normal (statement_of TAX_RATE (st_state s) (st_partnerExpenseMap s) partner), s).
Proof.
  unfold partner_callback, statement_of, bind, get_payments, get_dividends, map_get, ret.
  unfold dividends_of, payment_share. rewrite !reduce_sum_of. reflexivity.
Qed.

(** The engine completes normally with the summary and one statement per
    roster partner; in the store it leaves, the roster and the ledger are the
    ones it found there. *)
Lemma calculateFinancials_run (TAX_RATE : number) (s : Store) :
  calculateFinancials TAX_RATE s
  = (Normal (financials_of TAX_RATE (st_PARTNERS s) (st_state s)),
     mkStore (st_PARTNERS s) (st_state s)
       (expense_map (st_PARTNERS s) (AppState.expenses (st_state s)))).
Proof.
  unfold calculateFinancials, bind, get_payments, get_expenses, get_PARTNERS,
    new_partnerExpenseMap. simpl.
  rewrite (forEach_fold _ (fun _ => init_step)) by done. simpl.
  rewrite (forEach_fold _ expense_step) by apply expense_callback_run. simpl.
  rewrite (mapM_pure _
    (fun s' => statement_of TAX_RATE (st_state s') (st_partnerExpenseMap s')))
    by apply partner_callback_run.
  unfold ret, financials_of, summary_of, expense_map. simpl.
  rewrite !reduce_sum_of. reflexivity.
Qed.

Lemma computeFinancials_eq (ledger : AppState) (roster : list Partner) (rate : number) :
  computeFinancials ledger roster rate = Normal (financials_of rate roster ledger).
Proof. unfold computeFinancials. by rewrite calculateFinancials_run. Qed.

Lemma partnerExpenseMap_after_eq (ledger : AppState) (roster : list Partner)
    (rate : number) :
  partnerExpenseMap_after ledger roster rate
  = expense_map roster (AppState.expenses ledger).
Proof. unfold partnerExpenseMap_after. by rewrite calculateFinancials_run. Qed.

(** The engine completes normally: provide the result it returns. *)
Ltac returns :=
  lazymatch goal with
  | |- ∃ _, _ => eexists; returns
  | |- _ ∧ _ => split; [apply computeFinancials_eq|]
  end.

(** ** Numbers

    What the falsy values of JavaScript do to [value || 0]: the result is
    the value itself unless the value is a zero or [NaN], and it is equal to
    it, for [===], unless the value is [NaN]. *)

Section Numbers.

Implicit Types (x y : number).

Lemma SFcompare_refl (f : spec_float) : f ≠ S754_nan → SFcompare f f = Some Eq.
Proof.
  destruct f as [s|s| |s m e]; simpl; try done.
  - by destruct s.
  - intros _. rewrite Z.compare_refl, Pos.compare_cont_refl. by destruct s.
Qed.

Lemma is_nan_spec x : is_nan x = true ↔ Prim2SF x = S754_nan.
Proof.
  unfold is_nan. rewrite FloatAxioms.eqb_spec. unfold SFeqb. split.
  - destruct (Prim2SF x) eqn:E; try done; rewrite SFcompare_refl; done.
  - by intros ->.
Qed.

Lemma is_zero_spec x : PrimFloat.is_zero x = true ↔ ∃ s, Prim2SF x = S754_zero s.
Proof.
  unfold PrimFloat.is_zero. rewrite FloatAxioms.eqb_spec.
  change (Prim2SF zero) with (S754_zero false). unfold SFeqb. split.
  - destruct (Prim2SF x) as [s|s| |s m e]; simpl; try done; [by eexists|by destruct s..].
  - by intros [s ->].
Qed.

Lemma zero_eqb y : PrimFloat.is_zero y = true → (0 =? y) = true.
Proof. intros [s Hs]%is_zero_spec. by rewrite FloatAxioms.eqb_spec, Hs. Qed.

Lemma zero_cases x : PrimFloat.is_zero x = true → x = 0 ∨ x = -0.
Proof.
  intros [s Hs]%is_zero_spec. rewrite <-(SF2Prim_Prim2SF x), Hs.
  destruct s; [right|left]; reflexivity.
Qed.

Lemma add_nan_l x y : is_nan x = true → is_nan (x + y) = true.
Proof. rewrite !is_nan_spec, add_spec. by intros ->. Qed.

Lemma add_zero_l x y :
  PrimFloat.is_zero x = true → PrimFloat.is_zero y = false → x + y = y.
Proof.
  intros [s Hs]%is_zero_spec Hy. apply Prim2SF_inj. rewrite add_spec, Hs.
  destruct (Prim2SF y) as [s'| | |] eqn:E; try reflexivity.
  assert (PrimFloat.is_zero y = true) by (apply is_zero_spec; eauto). congruence.
Qed.

(** [y || 0] is [y] for [===], when [y] is a number. *)
Lemma orElse_eqb y : is_nan y = false → (orElse (Some y) 0 =? y) = true.
Proof.
  intros Hy. unfold orElse, truthy. rewrite Hy, orb_false_r.
  destruct (PrimFloat.is_zero y) eqn:Hz; simpl.
  - by apply zero_eqb.
  - unfold is_nan in Hy. by destruct (y =? y).
Qed.

(** [(acc + share) || 0] is [(acc || 0) + share] for [===], when the sum is
    a number. *)
Lemma orElse_add (acc share : number) :
  is_nan (acc + share) = false →
  (orElse (Some (acc + share)) 0 =? orElse (Some acc) 0 + share) = true.
Proof.
  intros Hy. unfold orElse at 2. unfold truthy.
  destruct (is_nan acc) eqn:Hn.
  { apply (add_nan_l _ share) in Hn. congruence. }
  rewrite orb_false_r.
  destruct (PrimFloat.is_zero acc) eqn:Hz; simpl; [|by apply orElse_eqb].
  destruct (PrimFloat.is_zero share) eqn:Hs.
  - apply zero_cases in Hz as [-> | ->]; apply zero_cases in Hs as [-> | ->]; reflexivity.
  - rewrite (add_zero_l acc share) in * by done.
    rewrite (add_zero_l 0 share) by done. by apply orElse_eqb.
Qed.

End Numbers.

(** ** The company summary *)

(** [Math.max(0, x)] is [x] when [x > 0], [NaN] when [x] is [NaN], and [+0]
    otherwise. *)
Lemma Math_max_zero (x : number) :
  Math_max [0; x] = if is_nan x then nan else if 0 <? x then x else 0.
Proof.
  unfold Math_max. simpl.
  change (max_step (Some neg_infinity) 0) with (Some 0). unfold max_step.
  destruct (is_nan x); [done|].
  change (Leibniz.eqb 0 neg_zero) with false. rewrite andb_false_r.
  by destruct (0 <? x).
Qed.

Lemma redistributed_totals (l l' : AppState) :
  redistributed l l' →
  map Payment.totalAmount (AppState.payments l') = map Payment.totalAmount (AppState.payments l)
  ∧ map Expense.amount (AppState.expenses l') = map Expense.amount (AppState.expenses l).
Proof.
  intros [Hp He]. split.
  - induction Hp as [|p p' ps ps' [ds ->] _ IH]; simpl; [done|]. by rewrite IH.
  - induction He as [|e e' es es' [ds ->] _ IH]; simpl; [done|]. by rewrite IH.
Qed.

Lemma statements_ids (rate : number) (state : AppState) (m : gmap string number)
    (roster : list Partner) :
  map PartnerFinancials.partnerId (map (statement_of rate state m) roster)
  = map Partner.id roster.
Proof. rewrite map_map. reflexivity. Qed.

(** C1. The company figure is clamped and the partner figure is not:
    [taxableProfit] is [Math.max(0, totalRevenue - totalExpenses)],
    [corporateTax] is [taxableProfit * rate] and [netProfit] is
    [totalRevenue - totalExpenses - corporateTax]; there is one statement per
    roster partner, in which [taxableBase] is [revenue - expenseShare],
    [corporateTaxShare] is [taxableBase * rate] when [taxableBase > 0] and
    [0] otherwise, and [netProfitShare] is [taxableBase - corporateTaxShare].
    On the sample ledger with revenue 50 and expenses 100 the company has
    [taxableProfit = 0], [corporateTax = 0] and [netProfit = -50], and the
    second partner has a negative [taxableBase] that is not clamped, no tax
    share, and [netProfitShare = taxableBase]. *)
Theorem C1_company_clamped_partner_not :
  (∀ (ledger : AppState) (roster : list Partner) (rate : number),
     ∃ out, computeFinancials ledger roster rate = Normal out
       ∧ (let s := Financials.summary out in
          let diff := FinancialSummary.totalRevenue s - FinancialSummary.totalExpenses s in
          FinancialSummary.taxableProfit s = Math_max [0; diff]
          ∧ FinancialSummary.taxableProfit s
            = (if is_nan diff then nan else if 0 <? diff then diff else 0)
          ∧ FinancialSummary.corporateTax s = FinancialSummary.taxableProfit s * rate
          ∧ FinancialSummary.netProfit s = diff - FinancialSummary.corporateTax s)
       ∧ map PartnerFinancials.partnerId (Financials.partnerStats out) = map Partner.id roster
       ∧ Forall (fun ps =>
           PartnerFinancials.taxableBase ps
           = PartnerFinancials.revenue ps - PartnerFinancials.expenseShare ps
           ∧ PartnerFinancials.corporateTaxShare ps
             = (if 0 <? PartnerFinancials.taxableBase ps
                then PartnerFinancials.taxableBase ps * rate else 0)
           ∧ PartnerFinancials.netProfitShare ps
             = PartnerFinancials.taxableBase ps - PartnerFinancials.corporateTaxShare ps)
           (Financials.partnerStats out))
  ∧ (∃ out p1 p2 p3,
       computeFinancials Samples.loss constants.PARTNERS constants.TAX_RATE = Normal out
       ∧ Financials.summary out = FinancialSummary.mk 50 100 0 0 (-50)
       ∧ Financials.partnerStats out = [p1; p2; p3]
       ∧ (PartnerFinancials.taxableBase p2 <? 0) = true
       ∧ PartnerFinancials.corporateTaxShare p2 = 0
       ∧ PartnerFinancials.netProfitShare p2 = PartnerFinancials.taxableBase p2).
Proof.
  split.
  - intros ledger roster rate. eexists. split; [apply computeFinancials_eq|].
    simpl. split; [|split].
    + repeat split. apply Math_max_zero.
    + apply statements_ids.
    + apply Forall_forall. intros ps Hps. apply list_elem_of_In, in_map_iff in Hps.
      destruct Hps as (p & <- & _). done.
  - eexists _, _, _, _. split; [apply computeFinancials_eq|].
    repeat split; vm_compute; reflexivity.
Qed.

(** C2 fails on the code: with an empty roster and the sample ledger the
    engine completes normally, with the company summary and an empty list of
    statements; it throws nothing. *)
Lemma C2_counterexample :
  computeFinancials Samples.loss [] constants.TAX_RATE
  = Normal (Financials.mk (FinancialSummary.mk 50 100 0 0 (-50)) [])
  ∧ ¬ ∃ error, computeFinancials Samples.loss [] constants.TAX_RATE = Throw error.
Proof.
  split; [vm_compute; reflexivity|].
  intros [error H]. rewrite computeFinancials_eq in H. discriminate.
Qed.

Lemma expense_map_snoc (roster : list Partner) (es : list Expense) (e : Expense) :
  expense_map roster (es ++ [e]) = expense_step roster (expense_map roster es) e.
Proof. unfold expense_map. by rewrite fold_left_app. Qed.

(** C2, amended. With an empty roster the engine completes normally: the
    list of statements is empty and the summary is the one it returns with
    any other roster; an expense without distributions stores nothing in
    [partnerExpenseMap], so that its quotient [amount / 0] reaches no figure
    of the result. *)
Theorem C2_empty_roster_returns (ledger : AppState) (rate : number) :
  ∃ out, computeFinancials ledger [] rate = Normal out
    ∧ Financials.partnerStats out = []
    ∧ (∀ roster, ∃ out', computeFinancials ledger roster rate = Normal out'
         ∧ Financials.summary out' = Financials.summary out)
    ∧ ∀ e, partnerExpenseMap_after (record_expense (expense_with None e) ledger) [] rate
           = partnerExpenseMap_after ledger [] rate
         ∧ partnerExpenseMap_after (record_expense (expense_with (Some []) e) ledger) [] rate
           = partnerExpenseMap_after ledger [] rate.
Proof.
  eexists. split; [apply computeFinancials_eq|]. split; [done|]. split.
  - intros roster. eexists. split; [apply computeFinancials_eq|]. done.
  - intros e. rewrite !partnerExpenseMap_after_eq. simpl.
    by rewrite !expense_map_snoc.
Qed.

(** ** The engine on a loaded ledger *)

Lemma rt_store_eta (s : Runtime.Store) :
  Runtime.mkStore (Runtime.st_PARTNERS s) (Runtime.st_state s)
    (Runtime.st_partnerExpenseMap s) = s.
Proof. by destruct s. Qed.

Lemma rt_forEach_fold {A : Type} (f : A -> Runtime.M unit)
    (g : list Partner -> gmap string number -> A -> gmap string number) (l : list A) :
  (∀ x s, f x s
          = (Normal tt, Runtime.mkStore (Runtime.st_PARTNERS s) (Runtime.st_state s)
                          (g (Runtime.st_PARTNERS s) (Runtime.st_partnerExpenseMap s) x))) →
  ∀ s, Runtime.forEach l f s
       = (Normal tt, Runtime.mkStore (Runtime.st_PARTNERS s) (Runtime.st_state s)
                       (fold_left (g (Runtime.st_PARTNERS s)) l
                          (Runtime.st_partnerExpenseMap s))).
Proof.
  intros Hf. induction l as [|x l IH]; intros s; simpl.
  - unfold Runtime.ret. by rewrite rt_store_eta.
  - unfold Runtime.bind. rewrite Hf, IH. reflexivity.
Qed.

Lemma rt_expense_callback_run (exp : Expense) (s : Runtime.Store) :
  Runtime.expense_callback exp s
  = (Normal tt, Runtime.mkStore (Runtime.st_PARTNERS s) (Runtime.st_state s)
                  (expense_step (Runtime.st_PARTNERS s) (Runtime.st_partnerExpenseMap s) exp)).
Proof.
  unfold Runtime.expense_callback, expense_step.
  destruct (Expense.distributions exp) as [[|d ds]|].
  - unfold Runtime.bind, Runtime.get_PARTNERS.
    by rewrite (rt_forEach_fold _
         (fun _ => split_step (Expense.amount exp / length_of (Runtime.st_PARTNERS s)))).
  - by rewrite (rt_forEach_fold _ (fun _ => dist_step)).
  - unfold Runtime.bind, Runtime.get_PARTNERS.
    by rewrite (rt_forEach_fold _
         (fun _ => split_step (Expense.amount exp / length_of (Runtime.st_PARTNERS s)))).
Qed.

(** The revenue loop of a statement stops at the first payment that has no
    list. *)
Lemma rt_revenue_run (pid : string) (ps : list RawPayment) (acc : number)
    (s : Runtime.Store) :
  Runtime.reduceM (fun sum p =>
      Runtime.bind
        (Runtime.distributions_find (fun d => str_eq (Distribution.partnerId d) pid) p)
        (fun dist =>
           Runtime.ret (sum + match dist with Some d => Distribution.amount d | None => 0 end)))
    acc ps s
  = (if forallb has_list ps
     then Normal (reduce (fun sum p => sum + payment_share pid p) acc (map typed_payment ps))
     else Throw "TypeError", s).
Proof.
  revert acc. induction ps as [|p ps IH]; intros acc; [done|].
  cbn [Runtime.reduceM forallb map reduce fold_left].
  unfold Runtime.bind at 1. unfold Runtime.bind at 1.
  unfold Runtime.distributions_find, has_list, payment_share at 2, typed_payment at 2.
  destruct (RawPayment.distributions p) as [ds|]; [|done].
  cbn [Runtime.ret andb Payment.distributions]. apply IH.
Qed.

Lemma rt_partner_callback_run (TAX_RATE : number) (partner : Partner) (s : Runtime.Store) :
  Runtime.partner_callback TAX_RATE partner s
  = (if has_lists (Runtime.st_state s)
     then Normal (statement_of TAX_RATE (typed (Runtime.st_state s))
                    (Runtime.st_partnerExpenseMap s) partner)
     else Throw "TypeError", s).
Proof.
  unfold Runtime.partner_callback. unfold Runtime.bind at 1. unfold Runtime.get_payments.
  unfold Runtime.bind at 1. rewrite rt_revenue_run. unfold has_lists.
  destruct (forallb has_list (RawState.payments (Runtime.st_state s))); [|done].
  unfold statement_of, Runtime.bind, Runtime.get_dividends, Runtime.map_get, Runtime.ret.
  unfold dividends_of. rewrite !reduce_sum_of. reflexivity.
Qed.

Lemma rt_mapM_run {A B : Type} (f : A -> Runtime.M B) (c : Runtime.Store -> bool)
    (h : Runtime.Store -> A -> B) (error : string) (l : list A) :
  (∀ x s, f x s = (if c s then Normal (h s x) else Throw error, s)) →
  ∀ s, Runtime.mapM l f s
       = (match l with
          | [] => Normal []
          | _ :: _ => if c s then Normal (map (h s) l) else Throw error
          end, s).
Proof.
  intros Hf. induction l as [|x l IH]; intros s; [done|].
  cbn [Runtime.mapM]. unfold Runtime.bind at 1. rewrite Hf.
  destruct (c s) eqn:Hc; [|done].
  unfold Runtime.bind. rewrite IH, Hc. by destruct l.
Qed.

(** The engine on a loaded ledger completes as the engine on the ledger of
    the declared types does when every payment has a list or the roster is
    empty, and throws otherwise; the expense loop has run by then. *)
Lemma rt_calculateFinancials_run (TAX_RATE : number) (s : Runtime.Store) :
  Runtime.calculateFinancials TAX_RATE s
  = (match Runtime.st_PARTNERS s with
     | [] => Normal (financials_of TAX_RATE [] (typed (Runtime.st_state s)))
     | _ :: _ =>
         if has_lists (Runtime.st_state s)
         then Normal (financials_of TAX_RATE (Runtime.st_PARTNERS s)
                        (typed (Runtime.st_state s)))
         else Throw "TypeError"
     end,
     Runtime.mkStore (Runtime.st_PARTNERS s) (Runtime.st_state s)
       (expense_map (Runtime.st_PARTNERS s) (RawState.expenses (Runtime.st_state s)))).
Proof.
  unfold Runtime.calculateFinancials, Runtime.bind, Runtime.get_payments,
    Runtime.get_expenses, Runtime.get_PARTNERS, Runtime.new_partnerExpenseMap. simpl.
  rewrite (rt_forEach_fold _ (fun _ => init_step)) by done. simpl.
  rewrite (rt_forEach_fold _ expense_step) by apply rt_expense_callback_run. simpl.
  rewrite (rt_mapM_run _ (fun s' => has_lists (Runtime.st_state s'))
    (fun s' => statement_of TAX_RATE (typed (Runtime.st_state s'))
                 (Runtime.st_partnerExpenseMap s')) "TypeError")
    by apply rt_partner_callback_run.
  simpl. unfold financials_of, summary_of, expense_map, typed. simpl.
  rewrite !reduce_sum_of, map_map. simpl.
  destruct (Runtime.st_PARTNERS s); [done|].
  by destruct (has_lists (Runtime.st_state s)).
Qed.

Lemma rt_computeFinancials_eq (r : RawState) (roster : list Partner) (rate : number) :
  Runtime.computeFinancials r roster rate
  = match roster with
    | [] => computeFinancials (typed r) [] rate
    | _ :: _ => if has_lists r then computeFinancials (typed r) roster rate
                else Throw "TypeError"
    end.
Proof.
  unfold Runtime.computeFinancials. rewrite rt_calculateFinancials_run.
  rewrite !computeFinancials_eq. reflexivity.
Qed.

Lemma relisted_typed (r r' : RawState) :
  relisted r r' → redistributed (typed r) (typed r').
Proof.
  intros [Hp He]. split; [|exact He]. cbn [typed AppState.payments].
  apply Forall2_fmap. eapply Forall2_impl; [exact Hp|].
  intros p p' [ds ->]. by exists ds.
Qed.

Lemma typed_totals (r : RawState) :
  map Payment.totalAmount (AppState.payments (typed r))
  = map RawPayment.totalAmount (RawState.payments r).
Proof. cbn [typed AppState.payments]. by rewrite map_map. Qed.

(** C3: a ledger for which the claim fails.  Its one payment, of 50, has no
    distributions list.  With the three partners of constants.ts the engine
    throws a TypeError at the first statement: it returns no summary, and so
    no [totalRevenue] that could equal the sum 50.  With the list present
    the engine returns and [totalRevenue] is that sum. *)
Lemma C3_counterexample :
  Runtime.computeFinancials Samples.unlisted constants.PARTNERS constants.TAX_RATE
  = Throw "TypeError"
  ∧ ¬ (∃ out,
         Runtime.computeFinancials Samples.unlisted constants.PARTNERS constants.TAX_RATE
         = Normal out
         ∧ FinancialSummary.totalRevenue (Financials.summary out)
           = sum_of (map RawPayment.totalAmount (RawState.payments Samples.unlisted)))
  ∧ ∃ out,
      Runtime.computeFinancials Samples.listed constants.PARTNERS constants.TAX_RATE
      = Normal out
      ∧ FinancialSummary.totalRevenue (Financials.summary out)
        = sum_of (map RawPayment.totalAmount (RawState.payments Samples.unlisted)).
Proof.
  assert (Runtime.computeFinancials Samples.unlisted constants.PARTNERS constants.TAX_RATE
          = Throw "TypeError") as Hthrow by (vm_compute; reflexivity).
  split; [exact Hthrow|]. split.
  - intros [out [H _]]. rewrite Hthrow in H. discriminate.
  - rewrite rt_computeFinancials_eq. cbn [constants.PARTNERS].
    change (has_lists Samples.listed) with true. cbn match.
    eexists. split; [apply computeFinancials_eq|]. reflexivity.
Qed.

(** C3, amended. For every loaded ledger whose payments each have a
    distributions list, the engine returns; [totalRevenue] is the sum of
    [totalAmount] over the payments and [totalExpenses] the sum of [amount]
    over the expenses, each added from 0 in ledger order; a ledger that
    differs only in the lists of its payments, or in the lists of its
    expenses, an absent list of an expense included, has the same summary.
    In general the engine on a loaded ledger does what the engine does on
    the ledger of the declared types when every payment has a list or the
    roster is empty, and it throws a TypeError otherwise. *)
Theorem C3_totals_with_lists (r r' : RawState) (roster : list Partner) (rate : number) :
  has_lists r = true →
  relisted r r' →
  (∃ out out',
     Runtime.computeFinancials r roster rate = Normal out
     ∧ Runtime.computeFinancials r' roster rate = Normal out'
     ∧ FinancialSummary.totalRevenue (Financials.summary out)
       = sum_of (map RawPayment.totalAmount (RawState.payments r))
     ∧ FinancialSummary.totalExpenses (Financials.summary out)
       = sum_of (map Expense.amount (RawState.expenses r))
     ∧ Financials.summary out' = Financials.summary out)
  ∧ ∀ (r0 : RawState) (roster0 : list Partner),
      Runtime.computeFinancials r0 roster0 rate
      = match roster0 with
        | [] => computeFinancials (typed r0) [] rate
        | _ :: _ =>
            if has_lists r0 then computeFinancials (typed r0) roster0 rate
            else Throw "TypeError"
        end.
Proof.
  intros Hr Hrel. split; [|intros r0 roster0; apply rt_computeFinancials_eq].
  assert (has_lists r' = true) as Hr'.
  { destruct Hrel as [Hp _]. unfold has_lists.
    induction Hp as [|p p' ps ps' [ds ->] _ IH]; [done|]. cbn [forallb]. by rewrite IH. }
  pose proof (redistributed_totals _ _ (relisted_typed _ _ Hrel)) as [Hp He].
  exists (financials_of rate roster (typed r)), (financials_of rate roster (typed r')).
  rewrite !rt_computeFinancials_eq, Hr, Hr', !computeFinancials_eq.
  split; [by destruct roster|]. split; [by destruct roster|].
  cbn [financials_of Financials.summary]. unfold summary_of.
  rewrite Hp, He, typed_totals. done.
Qed.

Lemma C3_witness :
  (∃ out out',
     Runtime.computeFinancials Samples.listed constants.PARTNERS constants.TAX_RATE
     = Normal out
     ∧ Runtime.computeFinancials
         (RawState.mk [] [Samples.raw_pay 50 (Some [])]
            [Samples.cost 100 (Some [Samples.share "p2" 100])] [])
         constants.PARTNERS constants.TAX_RATE
       = Normal out'
     ∧ FinancialSummary.totalRevenue (Financials.summary out)
       = sum_of (map RawPayment.totalAmount (RawState.payments Samples.listed))
     ∧ FinancialSummary.totalExpenses (Financials.summary out)
       = sum_of (map Expense.amount (RawState.expenses Samples.listed))
     ∧ Financials.summary out' = Financials.summary out)
  ∧ ∀ (r0 : RawState) (roster0 : list Partner),
      Runtime.computeFinancials r0 roster0 constants.TAX_RATE
      = match roster0 with
        | [] => computeFinancials (typed r0) [] constants.TAX_RATE
        | _ :: _ =>
            if has_lists r0 then computeFinancials (typed r0) roster0 constants.TAX_RATE
            else Throw "TypeError"
        end.
Proof.
  apply (C3_totals_with_lists Samples.listed).
  - reflexivity.
  - split; simpl; (constructor; [|constructor]).
    + exists []. reflexivity.
    + exists (Some [Samples.share "p2" 100]). reflexivity.
Defined.

(** ** The expense map *)

Section ExpenseMap.

Implicit Types (m : gmap string number) (k : string) (roster : list Partner).

Lemma str_eq_true (a b : string) : str_eq a b = true ↔ a = b.
Proof. apply String.eqb_eq. Qed.

Lemma str_eq_false (a b : string) : str_eq a b = false ↔ a ≠ b.
Proof. apply String.eqb_neq. Qed.

Lemma in_roster_cons (p : Partner) roster k :
  in_roster (p :: roster) k = str_eq (Partner.id p) k || in_roster roster k.
Proof. reflexivity. Qed.

Lemma in_roster_elem roster k :
  in_roster roster k = true ↔ k ∈ map Partner.id roster.
Proof.
  induction roster as [|p r IH].
  - split; [done|]. by intros ?%elem_of_nil.
  - change (map Partner.id (p :: r)) with (Partner.id p :: map Partner.id r).
    rewrite in_roster_cons, orb_true_iff, IH, str_eq_true, elem_of_cons.
    split; (intros [E|H]; [by left|by right]).
Qed.

Lemma init_lookup roster m k :
  fold_left init_step roster m !! k = if in_roster roster k then Some 0 else m !! k.
Proof.
  revert m. induction roster as [|p r IH]; intros m; [done|].
  rewrite in_roster_cons. cbn [fold_left]. rewrite IH. unfold init_step.
  destruct (in_roster r k); [by rewrite orb_true_r|]. rewrite orb_false_r.
  destruct (str_eq (Partner.id p) k) eqn:E.
  - apply str_eq_true in E as ->. by rewrite lookup_insert_eq.
  - apply str_eq_false in E. by rewrite lookup_insert_ne.
Qed.

(** The equal split adds [share] once to the property of every roster id,
    and touches no other property. *)
Lemma split_lookup (share : number) roster m k :
  NoDup (map Partner.id roster) →
  fold_left (split_step share) roster m !! k
  = if in_roster roster k then Some (toNumber (m !! k) + share) else m !! k.
Proof.
  revert m. induction roster as [|p r IH]; intros m Hnd; [done|].
  change (map Partner.id (p :: r)) with (Partner.id p :: map Partner.id r) in Hnd.
  apply NoDup_cons in Hnd as [Hp Hnd].
  rewrite in_roster_cons. cbn [fold_left]. rewrite IH by done. unfold split_step.
  destruct (str_eq (Partner.id p) k) eqn:E; simpl.
  - apply str_eq_true in E as <-.
    destruct (in_roster r (Partner.id p)) eqn:Hin.
    + by apply in_roster_elem in Hin.
    + by rewrite lookup_insert_eq.
  - apply str_eq_false in E. by rewrite lookup_insert_ne.
Qed.

(** The explicit branch adds, to the property of each id, the amounts of the
    entries that name it, in order, and touches no other property. *)
Lemma dist_lookup (ds : list Distribution) m k :
  fold_left dist_step ds m !! k = add_entries (m !! k) (entries_for k ds).
Proof.
  revert m. induction ds as [|d ds IH]; intros m; simpl; [done|].
  rewrite IH. unfold dist_step.
  destruct (str_eq (Distribution.partnerId d) k) eqn:E; simpl.
  - apply str_eq_true in E as <-. by rewrite lookup_insert_eq.
  - apply str_eq_false in E. by rewrite lookup_insert_ne.
Qed.

Lemma add_entries_is_Some (v : option number) (ds : list Distribution) :
  is_Some v → is_Some (add_entries v ds).
Proof.
  revert v. induction ds as [|d ds IH]; intros v Hv; simpl; [done|].
  apply IH. by eexists.
Qed.

Lemma split_is_Some (share : number) roster m k :
  is_Some (m !! k) → is_Some (fold_left (split_step share) roster m !! k).
Proof.
  revert m. induction roster as [|p r IH]; intros m Hm; simpl; [done|].
  apply IH. unfold split_step. apply lookup_insert_is_Some'. by right.
Qed.

Lemma expense_step_is_Some roster m (e : Expense) k :
  is_Some (m !! k) → is_Some (expense_step roster m e !! k).
Proof.
  intros Hm. unfold expense_step.
  destruct (Expense.distributions e) as [[|d ds]|].
  - by apply split_is_Some.
  - rewrite dist_lookup. by apply add_entries_is_Some.
  - by apply split_is_Some.
Qed.

(** Every roster id is a property of the map, from the first loop on. *)
Lemma expense_map_is_Some roster (es : list Expense) k :
  in_roster roster k = true → is_Some (expense_map roster es !! k).
Proof.
  intros Hk. unfold expense_map.
  assert (is_Some (fold_left init_step roster ∅ !! k)) as H0.
  { rewrite init_lookup, Hk. by eexists. }
  revert H0. generalize (fold_left init_step roster ∅).
  induction es as [|e es IH]; intros m Hm; simpl; [done|].
  apply IH. by apply expense_step_is_Some.
Qed.

Lemma in_roster_self roster (p : Partner) :
  p ∈ roster → in_roster roster (Partner.id p) = true.
Proof. intros Hp. apply in_roster_elem. by apply list_elem_of_fmap_2. Qed.

End ExpenseMap.

Lemma expenseShare_of (rate : number) (ledger : AppState) (roster : list Partner) :
  map PartnerFinancials.expenseShare (Financials.partnerStats (financials_of rate roster ledger))
  = map (fun p => orElse (expense_map roster (AppState.expenses ledger) !! Partner.id p) 0)
        roster.
Proof. simpl. rewrite map_map. reflexivity. Qed.

(** C4. When the engine reaches an expense whose distributions list is
    absent or empty, it adds [amount / roster.length] to the property of
    every roster partner in [partnerExpenseMap], which is where
    [expenseShare] is read from ([partnerExpenseMap[id] || 0]); unless the
    new value is [NaN], the [expenseShare] read from it equals ([===]) the
    one read before plus that share.  [ledger] is the ledger up to that
    expense; with the expenses [rest] after it, the loop goes on from the
    map so obtained.  With an amount of 90 and the three partners of the
    roster the share is exactly 30, and on the sample ledger made of that
    expense every [expenseShare] is 30. *)
Theorem C4_equal_split_fallback (ledger : AppState) (roster : list Partner)
    (rate : number) (e : Expense) :
  NoDup (map Partner.id roster) →
  Expense.distributions e = None ∨ Expense.distributions e = Some [] →
  let share := Expense.amount e / length_of roster in
  let before := partnerExpenseMap_after ledger roster rate in
  let after := partnerExpenseMap_after (record_expense e ledger) roster rate in
  Forall (fun p => ∃ acc,
            before !! Partner.id p = Some acc
            ∧ after !! Partner.id p = Some (acc + share)
            ∧ (is_nan (acc + share) = true
               ∨ (orElse (after !! Partner.id p) 0
                  =? orElse (before !! Partner.id p) 0 + share) = true)) roster
  ∧ (∃ out0 out,
       computeFinancials ledger roster rate = Normal out0
       ∧ computeFinancials (record_expense e ledger) roster rate = Normal out
       ∧ map PartnerFinancials.expenseShare (Financials.partnerStats out0)
         = map (fun p => orElse (before !! Partner.id p) 0) roster
       ∧ map PartnerFinancials.expenseShare (Financials.partnerStats out)
         = map (fun p => orElse (after !! Partner.id p) 0) roster)
  ∧ (∀ rest,
       partnerExpenseMap_after
         (with_expenses (AppState.expenses ledger ++ e :: rest) ledger) roster rate
       = st_partnerExpenseMap
           (snd (forEach rest expense_callback (mkStore roster ledger after))))
  ∧ 90 / length_of constants.PARTNERS = 30
  ∧ ∃ out, computeFinancials Samples.rent90 constants.PARTNERS constants.TAX_RATE = Normal out
      ∧ map PartnerFinancials.expenseShare (Financials.partnerStats out) = [30; 30; 30].
Proof.
  intros Hnd He share before after. subst before after.
  rewrite !partnerExpenseMap_after_eq. simpl. rewrite expense_map_snoc.
  split; [|split; [|split; [|split]]].
  - apply Forall_forall. intros p Hp. apply in_roster_self in Hp.
    destruct (expense_map_is_Some roster (AppState.expenses ledger) _ Hp) as [acc Hacc].
    exists acc. split; [done|].
    assert (expense_step roster (expense_map roster (AppState.expenses ledger)) e
            = fold_left (split_step share) roster
                (expense_map roster (AppState.expenses ledger))) as ->.
    { unfold expense_step. by destruct He as [-> | ->]. }
    rewrite split_lookup, Hp, Hacc by done. split; [done|].
    destruct (is_nan (acc + share)) eqn:Hnan; [by left|right].
    by apply orElse_add.
  - returns. split; [apply computeFinancials_eq|].
    rewrite !expenseShare_of. simpl. by rewrite expense_map_snoc.
  - intros rest. rewrite partnerExpenseMap_after_eq. simpl.
    rewrite (forEach_fold _ expense_step) by apply expense_callback_run. simpl.
    unfold expense_map at 1. rewrite fold_left_app. reflexivity.
  - vm_compute. reflexivity.
  - returns. vm_compute. reflexivity.
Qed.

Lemma C4_witness :
  let before :=
    partnerExpenseMap_after Samples.loss constants.PARTNERS constants.TAX_RATE in
  let after :=
    partnerExpenseMap_after (record_expense (Samples.cost 90 (Some [])) Samples.loss)
      constants.PARTNERS constants.TAX_RATE in
  Forall (fun p => ∃ acc,
            before !! Partner.id p = Some acc
            ∧ after !! Partner.id p = Some (acc + 90 / length_of constants.PARTNERS)
            ∧ (is_nan (acc + 90 / length_of constants.PARTNERS) = true
               ∨ (orElse (after !! Partner.id p) 0
                  =? orElse (before !! Partner.id p) 0
                     + 90 / length_of constants.PARTNERS) = true))
    constants.PARTNERS.
Proof.
  refine (proj1 (C4_equal_split_fallback Samples.loss constants.PARTNERS
                   constants.TAX_RATE (Samples.cost 90 (Some [])) _ _)).
  - apply (bool_decide_unpack _). vm_compute. reflexivity.
  - right. reflexivity.
Defined.

(** ** Statements *)

(** A statement depends on what the payments attribute to its partner, on
    the dividends and on the property of its partner in the expense map, and
    on nothing else. *)
Lemma statement_of_ext (rate : number) (s s' : AppState) (m m' : gmap string number)
    (p : Partner) :
  map (payment_share (Partner.id p)) (AppState.payments s')
  = map (payment_share (Partner.id p)) (AppState.payments s) →
  AppState.dividends s' = AppState.dividends s →
  m' !! Partner.id p = m !! Partner.id p →
  statement_of rate s' m' p = statement_of rate s m p.
Proof. unfold statement_of. by intros -> -> ->. Qed.

Lemma entries_for_unnamed (k : string) (ds : list Distribution) :
  existsb (fun x => str_eq (Distribution.partnerId x) k) ds = false →
  entries_for k ds = [].
Proof.
  induction ds as [|d ds IH]; simpl; [done|].
  intros [-> Hds]%orb_false_iff. by apply IH.
Qed.

(** C5. Appending, with [addExpense], an expense whose distributions list
    is not empty adds to each property of [partnerExpenseMap] the amounts of
    the entries that name it, [(value || 0) + amount] entry after entry, and
    nothing else: no share of the equal split.  A property that no entry
    names keeps its value; one that a single entry names becomes the
    [expenseShare] read before plus the amount of the entry, and the
    [expenseShare] read from it is equal ([===]) to that sum unless the sum
    is [NaN].  The statement of every
    roster partner that the list does not name is the same record as before,
    all figures included.  On the sample ledger, an expense of 100 with the
    single entry (p1, 100) raises the [expenseShare] of p1 by 100 and leaves
    those of p2 and p3 as they were. *)
Theorem C5_explicit_distributions (ledger : AppState) (roster : list Partner)
    (rate : number) (now desc : string) (amount : number) (date category : string)
    (d : Distribution) (ds : list Distribution) :
  let ledger' := addExpense now desc amount date category (d :: ds) ledger in
  let before := partnerExpenseMap_after ledger roster rate in
  let after := partnerExpenseMap_after ledger' roster rate in
  (∀ k, after !! k = add_entries (before !! k) (entries_for k (d :: ds)))
  ∧ (∀ k, match entries_for k (d :: ds) with
          | [] => after !! k = before !! k
          | [d1] =>
              let old := orElse (before !! k) 0 in
              after !! k = Some (old + Distribution.amount d1)
              ∧ (is_nan (old + Distribution.amount d1) = true
                 ∨ (orElse (after !! k) 0 =? old + Distribution.amount d1) = true)
          | _ => True
          end)
  ∧ (∃ out0 out,
       computeFinancials ledger roster rate = Normal out0
       ∧ computeFinancials ledger' roster rate = Normal out
       ∧ map PartnerFinancials.expenseShare (Financials.partnerStats out0)
         = map (fun p => orElse (before !! Partner.id p) 0) roster
       ∧ map PartnerFinancials.expenseShare (Financials.partnerStats out)
         = map (fun p => orElse (after !! Partner.id p) 0) roster
       ∧ Forall2 (fun ps0 ps =>
           existsb (fun x => str_eq (Distribution.partnerId x)
                               (PartnerFinancials.partnerId ps0)) (d :: ds) = true
           ∨ ps = ps0)
           (Financials.partnerStats out0) (Financials.partnerStats out))
  ∧ ∃ out0 out e1 e2 e3,
      computeFinancials Samples.loss constants.PARTNERS constants.TAX_RATE = Normal out0
      ∧ computeFinancials
          (addExpense "1700000000003" "tools" 100 "2024-03-01" "Оборудване"
             [Samples.share "p1" 100] Samples.loss)
          constants.PARTNERS constants.TAX_RATE = Normal out
      ∧ map PartnerFinancials.expenseShare (Financials.partnerStats out0) = [e1; e2; e3]
      ∧ map PartnerFinancials.expenseShare (Financials.partnerStats out)
        = [e1 + 100; e2; e3].
Proof.
  intros ledger' before after. subst ledger' before after.
  rewrite !partnerExpenseMap_after_eq. unfold addExpense.
  cbn [record_expense AppState.expenses]. rewrite expense_map_snoc.
  set (m := expense_map roster (AppState.expenses ledger)).
  assert (∀ k, expense_step roster m
                 (Expense.mk now date desc amount category (Some (d :: ds))) !! k
               = add_entries (m !! k) (entries_for k (d :: ds))) as Hstep.
  { intros k. unfold expense_step. simpl. apply (dist_lookup (d :: ds)). }
  split; [exact Hstep|]. split; [|split].
  - intros k. rewrite Hstep.
    destruct (entries_for k (d :: ds)) as [|d1 [|d2 rest]]; [done| |done].
    cbn [add_entries fold_left]. split; [done|].
    destruct (is_nan (orElse (m !! k) 0 + Distribution.amount d1)) eqn:Hnan;
      [by left|right].
    by apply orElse_eqb.
  - returns. split; [apply computeFinancials_eq|].
    rewrite !expenseShare_of. simpl. rewrite expense_map_snoc. fold m.
    split; [done|]. split; [done|].
    apply Forall2_fmap, Forall_Forall2_diag, Forall_forall. intros p _.
    change (PartnerFinancials.partnerId (statement_of rate ledger m p))
      with (Partner.id p).
    match goal with
    | |- ?b = true ∨ _ => destruct b eqn:Hnamed; [by left|right]
    end.
    apply statement_of_ext; [done..|].
    by rewrite Hstep, (entries_for_unnamed _ (d :: ds) Hnamed).
  - returns. split; [apply computeFinancials_eq|]. split; vm_compute; reflexivity.
Qed.

(** C6. In every statement [dividendsTakenGross] is the sum of
    [grossAmount] over the dividend records of the partner and [balance] is
    [netProfitShare - dividendsTakenGross]; the engine completes normally
    whatever the sign of the balance.  On the sample ledger the first
    partner has [netProfitShare = 1000], one dividend of 1200, and
    [balance = -200]. *)
Theorem C6_balance_unclamped :
  (∀ (ledger : AppState) (roster : list Partner) (rate : number),
     ∃ out, computeFinancials ledger roster rate = Normal out
       ∧ Forall2 (fun p ps =>
           PartnerFinancials.dividendsTakenGross ps
           = sum_of (map DividendPayout.grossAmount
                       (dividends_of (Partner.id p) (AppState.dividends ledger)))
           ∧ PartnerFinancials.balance ps
             = PartnerFinancials.netProfitShare ps
               - PartnerFinancials.dividendsTakenGross ps)
           roster (Financials.partnerStats out))
  ∧ ∃ out p1 p2 p3,
      computeFinancials Samples.overdrawn constants.PARTNERS constants.TAX_RATE = Normal out
      ∧ Financials.partnerStats out = [p1; p2; p3]
      ∧ PartnerFinancials.netProfitShare p1 = 1000
      ∧ PartnerFinancials.dividendsTakenGross p1 = 1200
      ∧ PartnerFinancials.balance p1 = -200.
Proof.
  split.
  - intros ledger roster rate. eexists. split; [apply computeFinancials_eq|].
    simpl. apply Forall2_fmap_r, Forall_Forall2_diag, Forall_forall.
    intros p _. done.
  - eexists _, _, _, _. split; [apply computeFinancials_eq|].
    repeat split; vm_compute; reflexivity.
Qed.

(** ** The dividend recorder *)

(** C7 fails on the code: a payout of 12.4 at the rate 0.05 is recorded with
    [taxAmount = 0.62000000000000011] and [netReceived = 11.780000000000001],
    whose sum is 12.400000000000002 and not [grossAmount]. *)
Lemma C7_counterexample :
  ∃ d, AppState.dividends
         (addDividend constants.DIVIDEND_TAX_RATE "1700000000004" "p1" 12.4 "2024-02-01"
            constants.INITIAL_STATE) = [d]
    ∧ DividendPayout.taxAmount d = 0.62000000000000011
    ∧ DividendPayout.netReceived d = 11.780000000000001
    ∧ DividendPayout.taxAmount d + DividendPayout.netReceived d = 12.400000000000002
    ∧ DividendPayout.taxAmount d + DividendPayout.netReceived d
      ≠ DividendPayout.grossAmount d.
Proof.
  eexists. split; [reflexivity|]. simpl.
  repeat split; try (vm_compute; reflexivity).
  intros H. apply (f_equal (fun x => Leibniz.eqb x 12.4)) in H.
  vm_compute in H. discriminate.
Qed.

(** C7, amended. [addDividend] appends one record and changes nothing else
    of the ledger; the record carries the partner, the date and the gross
    amount it was given, [taxAmount = grossAmount * rate] and
    [netReceived = grossAmount - taxAmount], each a single rounded binary64
    operation.  The two figures depend on the gross amount and the rate
    only: another clock reading, partner, date or ledger gives the same.
    With a gross amount of 1000 and the rate 0.05 they are 50 and 950, which
    add up to 1000. *)
Theorem C7_dividend_record (rate : number) (now pid : string) (gross : number)
    (date : string) (prev : AppState) :
  (∃ d, addDividend rate now pid gross date prev
        = AppState.mk (AppState.projects prev) (AppState.payments prev)
            (AppState.expenses prev) (AppState.dividends prev ++ [d])
     ∧ DividendPayout.partnerId d = pid
     ∧ DividendPayout.date d = date
     ∧ DividendPayout.grossAmount d = gross
     ∧ DividendPayout.taxAmount d = gross * rate
     ∧ DividendPayout.netReceived d = gross - DividendPayout.taxAmount d
     ∧ ∀ now' pid' date' prev',
         ∃ d', AppState.dividends (addDividend rate now' pid' gross date' prev')
               = AppState.dividends prev' ++ [d']
           ∧ DividendPayout.taxAmount d' = DividendPayout.taxAmount d
           ∧ DividendPayout.netReceived d' = DividendPayout.netReceived d)
  ∧ ∃ d, AppState.dividends
           (addDividend constants.DIVIDEND_TAX_RATE now pid 1000 date prev)
         = AppState.dividends prev ++ [d]
      ∧ DividendPayout.taxAmount d = 50
      ∧ DividendPayout.netReceived d = 950
      ∧ DividendPayout.taxAmount d + DividendPayout.netReceived d = 1000.
Proof.
  split.
  - eexists. split; [reflexivity|]. simpl. repeat split.
    intros now' pid' date' prev'. eexists. split; [reflexivity|]. done.
  - eexists. split; [reflexivity|]. simpl. repeat split; vm_compute; reflexivity.
Qed.

(** ** Purity *)

(** C9. A call of the engine completes normally and leaves the roster and
    the ledger in the store exactly as it found them; its result depends on
    the roster, the ledger and the rate only (whatever [partnerExpenseMap]
    held before is discarded), so that a second call returns the same
    summary and the same statements; the statements come in roster order. *)
Theorem C9_pure_and_deterministic (rate : number) (s : Store) :
  ∃ out s',
    calculateFinancials rate s = (Normal out, s')
    ∧ st_PARTNERS s' = st_PARTNERS s
    ∧ st_state s' = st_state s
    ∧ calculateFinancials rate s' = (Normal out, s')
    ∧ (∀ m, fst (calculateFinancials rate (mkStore (st_PARTNERS s) (st_state s) m))
            = Normal out)
    ∧ computeFinancials (st_state s) (st_PARTNERS s) rate = Normal out
    ∧ map PartnerFinancials.partnerId (Financials.partnerStats out)
      = map Partner.id (st_PARTNERS s).
Proof.
  eexists _, _. split; [apply calculateFinancials_run|]. simpl.
  split; [done|]. split; [done|]. split; [by rewrite calculateFinancials_run|].
  split; [intros m; by rewrite calculateFinancials_run|].
  split; [apply computeFinancials_eq|]. apply statements_ids.
Qed.

(** ** Which entries of a distributions list count *)

Section Entries.

Implicit Types (k : string) (ds : list Distribution) (roster : list Partner).

Lemma str_eq_sym (a b : string) : str_eq a b = str_eq b a.
Proof. apply String.eqb_sym. Qed.

Lemma existsb_str_eq (k : string) (seen : list string) :
  existsb (str_eq k) seen = true ↔ k ∈ seen.
Proof.
  induction seen as [|x seen IH]; simpl.
  - split; [done|]. by intros ?%elem_of_nil.
  - rewrite orb_true_iff, IH, str_eq_true, elem_of_cons. done.
Qed.

(** [find] sees the first entry of a partner only. *)
Lemma find_first_entries k (seen : list string) ds :
  List.find (fun d => str_eq (Distribution.partnerId d) k) (first_entries seen ds)
  = if existsb (str_eq k) seen then None
    else List.find (fun d => str_eq (Distribution.partnerId d) k) ds.
Proof.
  revert seen. induction ds as [|d ds IH]; intros seen; simpl.
  - by destruct (existsb (str_eq k) seen).
  - destruct (existsb (str_eq (Distribution.partnerId d)) seen) eqn:Hd.
    + rewrite IH. destruct (existsb (str_eq k) seen) eqn:Hk; [done|].
      destruct (str_eq (Distribution.partnerId d) k) eqn:E; [|done].
      apply str_eq_true in E. rewrite E in Hd. congruence.
    + simpl. rewrite IH. simpl. rewrite (str_eq_sym k).
      destruct (str_eq (Distribution.partnerId d) k) eqn:E; simpl.
      * apply str_eq_true in E. rewrite E in Hd. by rewrite Hd.
      * done.
Qed.

Lemma payment_share_first_entries k (p : Payment) :
  payment_share k (payment_with (first_entries [] (Payment.distributions p)) p)
  = payment_share k p.
Proof. unfold payment_share. simpl. by rewrite find_first_entries. Qed.

(** [find] for a roster id skips the entries that name other ids. *)
Lemma find_on_roster roster k ds :
  in_roster roster k = true →
  List.find (fun d => str_eq (Distribution.partnerId d) k) (on_roster roster ds)
  = List.find (fun d => str_eq (Distribution.partnerId d) k) ds.
Proof.
  intros Hk. induction ds as [|d ds IH]; simpl; [done|].
  destruct (in_roster roster (Distribution.partnerId d)) eqn:Hd; simpl.
  - by rewrite IH.
  - destruct (str_eq (Distribution.partnerId d) k) eqn:E; [|done].
    apply str_eq_true in E. congruence.
Qed.

Lemma entries_for_on_roster roster k ds :
  in_roster roster k = true →
  entries_for k (on_roster roster ds) = entries_for k ds.
Proof.
  intros Hk. induction ds as [|d ds IH]; simpl; [done|].
  destruct (in_roster roster (Distribution.partnerId d)) eqn:Hd; simpl.
  - by rewrite IH.
  - destruct (str_eq (Distribution.partnerId d) k) eqn:E; [|done].
    apply str_eq_true in E. congruence.
Qed.

Lemma sum_of_shares_ext k (f : Payment → Payment) (ps : list Payment) :
  (∀ p, payment_share k (f p) = payment_share k p) →
  map (payment_share k) (map f ps) = map (payment_share k) ps.
Proof. intros Hf. rewrite map_map. apply map_ext. done. Qed.

End Entries.

Lemma explicit_expense_lookup (ledger : AppState) (roster : list Partner) (rate : number)
    (now desc : string) (amount : number) (date category : string)
    (ds : list Distribution) (k : string) :
  ds ≠ [] →
  partnerExpenseMap_after (addExpense now desc amount date category ds ledger) roster rate
    !! k
  = add_entries (partnerExpenseMap_after ledger roster rate !! k) (entries_for k ds).
Proof.
  intros Hds. rewrite !partnerExpenseMap_after_eq. unfold addExpense. simpl.
  rewrite expense_map_snoc. unfold expense_step. simpl.
  destruct ds as [|d ds]; [done|]. apply dist_lookup.
Qed.

(** C10. A payment counts, for each partner, the first entry that names the
    partner and no later one: removing every later entry from every payment
    changes nothing in the result.  An expense adds every entry: the
    property of a partner grows by the amounts of all the entries that name
    it, so that two entries [a1] and [a2] for one partner give
    [((value || 0) + a1 || 0) + a2].  On the sample ledger whose payment and
    expense both carry (p1, 100) and (p1, 50), the revenue of p1 is 100 and
    its expense share is 150. *)
Theorem C10_duplicate_entries :
  (∀ (ledger : AppState) (roster : list Partner) (rate : number),
     computeFinancials
       (with_payments
          (map (fun p => payment_with (first_entries [] (Payment.distributions p)) p)
               (AppState.payments ledger))
          ledger) roster rate
     = computeFinancials ledger roster rate)
  ∧ (∀ (ledger : AppState) (roster : list Partner) (rate : number)
       (now desc : string) (amount : number) (date category : string)
       (d : Distribution) (ds : list Distribution) (k : string),
       partnerExpenseMap_after
         (addExpense now desc amount date category (d :: ds) ledger) roster rate !! k
       = add_entries (partnerExpenseMap_after ledger roster rate !! k)
           (entries_for k (d :: ds)))
  ∧ (∀ (v : option number) (pid : string) (a1 a2 : number),
       add_entries v (entries_for pid [Distribution.mk pid a1; Distribution.mk pid a2])
       = Some (orElse (Some (orElse v 0 + a1)) 0 + a2))
  ∧ ∃ out,
      computeFinancials Samples.twice constants.PARTNERS constants.TAX_RATE = Normal out
      ∧ map PartnerFinancials.revenue (Financials.partnerStats out) = [100; 0; 0]
      ∧ map PartnerFinancials.expenseShare (Financials.partnerStats out) = [150; 0; 0].
Proof.
  split; [|split; [|split]].
  - intros ledger roster rate. rewrite !computeFinancials_eq. f_equal.
    unfold financials_of. f_equal.
    + unfold summary_of. simpl. rewrite map_map. reflexivity.
    + apply map_ext. intros p. apply statement_of_ext; [|done..].
      simpl. apply sum_of_shares_ext. intros q. apply payment_share_first_entries.
  - intros. by apply explicit_expense_lookup.
  - intros v pid a1 a2. unfold entries_for. simpl.
    assert (str_eq pid pid = true) as -> by by apply str_eq_true.
    reflexivity.
  - eexists. split; [apply computeFinancials_eq|]. split; vm_compute; reflexivity.
Qed.

(** ** Entries that name no roster partner *)

Section Strangers.

Variable roster : list Partner.

Lemma split_agree (share : number) (r : list Partner) (m m' : gmap string number) :
  agree roster m m' →
  agree roster (fold_left (split_step share) r m) (fold_left (split_step share) r m').
Proof.
  revert m m'. induction r as [|p r IH]; intros m m' Hm; [done|].
  cbn [fold_left]. apply IH. intros k Hk. unfold split_step.
  destruct (str_eq (Partner.id p) k) eqn:E.
  - apply str_eq_true in E as ->. by rewrite !lookup_insert_eq, (Hm _ Hk).
  - apply str_eq_false in E. rewrite !lookup_insert_ne by done. by apply Hm.
Qed.

Lemma expense_step_agree (m m' : gmap string number) (e e' : Expense) :
  agree roster m m' → same_expense_on roster e e' →
  agree roster (expense_step roster m e) (expense_step roster m' e').
Proof.
  intros Hm [-> | (d & ds & d' & ds' & He & -> & Hon)].
  - unfold expense_step. destruct (Expense.distributions e) as [[|d ds]|].
    + by apply split_agree.
    + intros k Hk. by rewrite !dist_lookup, (Hm _ Hk).
    + by apply split_agree.
  - intros k Hk. unfold expense_step. rewrite He. simpl Expense.distributions.
    rewrite !dist_lookup, (Hm _ Hk).
    rewrite <-(entries_for_on_roster roster k (d :: ds)) by done.
    rewrite <-(entries_for_on_roster roster k (d' :: ds')) by done.
    by rewrite Hon.
Qed.

Lemma expense_map_agree (es es' : list Expense) :
  Forall2 (same_expense_on roster) es es' →
  agree roster (expense_map roster es) (expense_map roster es').
Proof.
  unfold expense_map. intros Hes.
  assert (agree roster (fold_left init_step roster ∅) (fold_left init_step roster ∅)) as H0
    by done.
  revert H0. generalize (fold_left init_step roster ∅) at 1 3.
  generalize (fold_left init_step roster ∅).
  induction Hes as [|e e' es es' He _ IH]; intros m' m Hm; [done|].
  cbn [fold_left]. apply IH. by apply expense_step_agree.
Qed.

Lemma same_expense_amount (e e' : Expense) :
  same_expense_on roster e e' → Expense.amount e' = Expense.amount e.
Proof. by intros [-> | (d & ds & d' & ds' & _ & -> & _)]. Qed.

Lemma same_payment_share (p p' : Payment) (k : string) :
  same_payment_on roster p p' → in_roster roster k = true →
  payment_share k p' = payment_share k p.
Proof.
  intros (ds & -> & Hon) Hk. unfold payment_share. simpl.
  rewrite <-(find_on_roster roster k ds), <-(find_on_roster roster k (Payment.distributions p))
    by done.
  by rewrite Hon.
Qed.

Lemma same_on_roster_financials (rate : number) (l l' : AppState) :
  same_on_roster roster l l' →
  financials_of rate roster l' = financials_of rate roster l.
Proof.
  intros (Hp & He & Hd). unfold financials_of. f_equal.
  - unfold summary_of.
    assert (map Payment.totalAmount (AppState.payments l')
            = map Payment.totalAmount (AppState.payments l)) as ->.
    { induction Hp as [|p p' ps ps' (ds & -> & _) _ IH]; simpl; [done|]. by rewrite IH. }
    assert (map Expense.amount (AppState.expenses l')
            = map Expense.amount (AppState.expenses l)) as ->; [|done].
    induction He as [|e e' es es' He _ IH]; simpl; [done|].
    by rewrite IH, (same_expense_amount _ _ He).
  - apply map_ext_in. intros p Hp'. apply list_elem_of_In, in_roster_self in Hp'.
    apply statement_of_ext; [|done|].
    + clear He Hd. induction Hp as [|q q' ps ps' Hq _ IH]; simpl; [done|].
      by rewrite IH, (same_payment_share _ _ _ Hq Hp').
    + symmetry. by apply expense_map_agree.
Qed.

End Strangers.

(** C8. A ledger that differs from another only in entries naming partners
    outside the roster (in its payments, and in its expenses whose list is
    not empty) gets the same result: the same statements, since such
    entries reach no roster partner and an expense that has only such
    entries is not split equally, and the same summary, whose totals are the
    sums of the parent amounts.  The engine completes normally.  On the
    sample ledger, a payment of 300 with 200 for an unknown partner and an
    expense of 80 entirely for an unknown partner give revenues 0, 100, 0
    and expense shares 0, 0, 0, with totals 300 and 80. *)
Theorem C8_unknown_partner_entries (l l' : AppState) (roster : list Partner)
    (rate : number) :
  same_on_roster roster l l' →
  (∃ out,
     computeFinancials l roster rate = Normal out
     ∧ computeFinancials l' roster rate = Normal out
     ∧ FinancialSummary.totalRevenue (Financials.summary out)
       = sum_of (map Payment.totalAmount (AppState.payments l'))
     ∧ FinancialSummary.totalExpenses (Financials.summary out)
       = sum_of (map Expense.amount (AppState.expenses l')))
  ∧ ∃ out,
      computeFinancials Samples.stranger constants.PARTNERS constants.TAX_RATE = Normal out
      ∧ map PartnerFinancials.revenue (Financials.partnerStats out) = [0; 100; 0]
      ∧ map PartnerFinancials.expenseShare (Financials.partnerStats out) = [0; 0; 0]
      ∧ FinancialSummary.totalRevenue (Financials.summary out) = 300
      ∧ FinancialSummary.totalExpenses (Financials.summary out) = 80.
Proof.
  intros Hsame. split.
  - eexists. split; [apply computeFinancials_eq|].
    rewrite computeFinancials_eq, (same_on_roster_financials _ _ _ _ Hsame).
    split; [done|].
    rewrite <-(same_on_roster_financials roster rate l l' Hsame). done.
  - eexists. split; [apply computeFinancials_eq|]. repeat split; vm_compute; reflexivity.
Qed.

Lemma C8_witness :
  ∃ out,
    computeFinancials Samples.stranger constants.PARTNERS constants.TAX_RATE = Normal out
    ∧ computeFinancials Samples.stranger' constants.PARTNERS constants.TAX_RATE = Normal out
    ∧ FinancialSummary.totalRevenue (Financials.summary out)
      = sum_of (map Payment.totalAmount (AppState.payments Samples.stranger'))
    ∧ FinancialSummary.totalExpenses (Financials.summary out)
      = sum_of (map Expense.amount (AppState.expenses Samples.stranger')).
Proof.
  refine (proj1 (C8_unknown_partner_entries Samples.stranger Samples.stranger'
                   constants.PARTNERS constants.TAX_RATE _)).
  split; [|split; [|reflexivity]]; simpl; (constructor; [|constructor]).
  - eexists. split; reflexivity.
  - right. eexists _, _, _, _. repeat split; reflexivity.
Defined.

(** * Further properties *)

(** ** The engine and the handlers that feed it *)

Lemma sum_of_snoc (l : list number) (x : number) : sum_of (l ++ [x]) = sum_of l + x.
Proof. unfold sum_of. by rewrite fold_left_app. Qed.

(** The result is a function of the payments, the expenses and the
    dividends of the ledger. *)
Lemma financials_of_ext (rate : number) (roster : list Partner) (s s' : AppState) :
  AppState.payments s' = AppState.payments s →
  AppState.expenses s' = AppState.expenses s →
  AppState.dividends s' = AppState.dividends s →
  financials_of rate roster s' = financials_of rate roster s.
Proof.
  intros Hp He Hd. unfold financials_of, summary_of. rewrite Hp, He. f_equal.
  apply map_ext. intros p. apply statement_of_ext; [by rewrite Hp|done|done].
Qed.

(** X1. The projects of the ledger have no part in the result: whatever
    the list of projects, the engine returns the same summary and the same
    statements.  In particular adding a project and deleting one change no
    figure, and deleting a project keeps the payments that refer to it. *)
Theorem engine_ignores_projects (ledger : AppState) (roster : list Partner) (rate : number)
    (projects : list Project) (now createdAt name desc pid : string) (type : ProjectType) :
  computeFinancials
    (AppState.mk projects (AppState.payments ledger) (AppState.expenses ledger)
       (AppState.dividends ledger)) roster rate
  = computeFinancials ledger roster rate
  ∧ computeFinancials (addProject now createdAt name desc type ledger) roster rate
    = computeFinancials ledger roster rate
  ∧ computeFinancials (deleteProject pid ledger) roster rate
    = computeFinancials ledger roster rate
  ∧ AppState.payments (deleteProject pid ledger) = AppState.payments ledger.
Proof.
  rewrite !computeFinancials_eq. split; [|split; [|split]].
  - apply f_equal. by apply financials_of_ext.
  - apply f_equal. apply financials_of_ext; by destruct name.
  - apply f_equal. by apply financials_of_ext.
  - reflexivity.
Qed.

Lemma filter_other_ids (pid : string) (projects : list Project) :
  Forall (fun pr => Project.id pr ≠ pid) projects →
  List.filter (fun pr => negb (str_eq (Project.id pr) pid)) projects = projects.
Proof.
  induction 1 as [|pr prs Hpr _ IH]; simpl; [done|].
  apply str_eq_false in Hpr. by rewrite Hpr, IH.
Qed.

Lemma filter_sublist {A : Type} (f : A → bool) (l : list A) :
  sublist (List.filter f l) l.
Proof.
  induction l as [|x l IH]; cbn [List.filter]; [constructor|].
  destruct (f x); by constructor.
Qed.

Lemma filter_shorter {A : Type} (f : A → bool) (l : list A) :
  (length (List.filter f l) <= length l)%nat
  ∧ (forallb f l = false → (length (List.filter f l) < length l)%nat).
Proof.
  induction l as [|x l [IH1 IH2]]; cbn [List.filter forallb length]; [split; [lia|done]|].
  destruct (f x); cbn [length andb]; split; try lia.
  intros H. specialize (IH2 H). lia.
Qed.

Lemma forallb_other_ids (pid : string) (projects : list Project) :
  forallb (fun pr => negb (str_eq (Project.id pr) pid)) projects = true →
  Forall (fun pr => Project.id pr ≠ pid) projects.
Proof.
  induction projects as [|pr prs IH]; cbn [forallb]; [constructor|].
  intros [H1 H2]%andb_prop. constructor; [|by apply IH].
  apply str_eq_false. by destruct (str_eq (Project.id pr) pid).
Qed.

Lemma filter_kept_ids (pid : string) (projects : list Project) (pr : Project) :
  pr ∈ List.filter (fun pr => negb (str_eq (Project.id pr) pid)) projects
  ↔ pr ∈ projects ∧ Project.id pr ≠ pid.
Proof.
  rewrite !list_elem_of_In, filter_In.
  split; intros [H1 H2]; (split; [done|]).
  - apply str_eq_false. by destruct (str_eq (Project.id pr) pid).
  - apply str_eq_false in H2. by rewrite H2.
Qed.

(** X2. Deleting removes every project that carries the id, wherever it
    stands in the list, and nothing else: after a deletion no project has
    the deleted id; the projects that remain are exactly the projects with
    another id, in the order they had; payments, expenses and dividends are
    kept, also those of the deleted project.  Deleting once more changes
    nothing, and the deletion gives back the ledger itself exactly when no
    project had the id.  A project added with the id (two of them, when two
    are added within one millisecond) is removed with the others.  Adding a
    project without a name changes nothing. *)
Theorem deleteProject_removes_every_match (prev : AppState) (pid : string) :
  let next := deleteProject pid prev in
  Forall (fun pr => Project.id pr ≠ pid) (AppState.projects next)
  ∧ (∀ pr, pr ∈ AppState.projects next ↔ pr ∈ AppState.projects prev ∧ Project.id pr ≠ pid)
  ∧ sublist (AppState.projects next) (AppState.projects prev)
  ∧ AppState.payments next = AppState.payments prev
  ∧ AppState.expenses next = AppState.expenses prev
  ∧ AppState.dividends next = AppState.dividends prev
  ∧ deleteProject pid next = next
  ∧ (if forallb (fun pr => negb (str_eq (Project.id pr) pid)) (AppState.projects prev)
     then next = prev
     else next ≠ prev)
  ∧ (∀ c n d t, deleteProject pid (addProject pid c n d t prev) = next)
  ∧ (∀ c1 c2 n1 n2 d1 d2 t1 t2,
       deleteProject pid (addProject pid c2 n2 d2 t2 (addProject pid c1 n1 d1 t1 prev))
       = next)
  ∧ (∀ now c d t, addProject now c "" d t prev = prev).
Proof.
  intros next. subst next.
  assert (str_eq pid pid = true) as Hpid by by apply str_eq_true.
  assert (Forall (fun pr => Project.id pr ≠ pid)
            (AppState.projects (deleteProject pid prev))) as Hnone.
  { apply Forall_forall. intros pr Hpr. by apply filter_kept_ids in Hpr as [_ ?]. }
  assert (∀ c n d t, deleteProject pid (addProject pid c n d t prev)
                     = deleteProject pid prev) as Hadd.
  { intros c n d t. destruct n as [|a n]; [done|].
    unfold deleteProject, addProject. cbn [AppState.projects AppState.payments
      AppState.expenses AppState.dividends].
    rewrite List.filter_app. cbn [List.filter Project.id]. rewrite Hpid. cbn [negb].
    by rewrite app_nil_r. }
  split; [exact Hnone|]. split; [intros pr; apply filter_kept_ids|].
  split; [apply filter_sublist|]. do 3 (split; [reflexivity|]).
  split; [|split; [|split; [exact Hadd|split]]].
  - unfold deleteProject at 1.
    rewrite (filter_other_ids _ _ Hnone). reflexivity.
  - destruct (forallb _ (AppState.projects prev)) eqn:Hall.
    + unfold deleteProject. rewrite filter_other_ids by by apply forallb_other_ids.
      by destruct prev.
    + intros Heq. apply (f_equal (fun st => length (AppState.projects st))) in Heq.
      pose proof (proj2 (filter_shorter _ _) Hall) as Hlt.
      cbn [deleteProject AppState.projects] in Heq. lia.
  - intros c1 c2 n1 n2 d1 d2 t1 t2.
    destruct n2 as [|b n2]; [apply Hadd|].
    rewrite <- (Hadd c1 n1 d1 t1).
    set (mid := addProject pid c1 n1 d1 t1 prev).
    unfold deleteProject, addProject. cbn [AppState.projects AppState.payments
      AppState.expenses AppState.dividends].
    rewrite List.filter_app. cbn [List.filter Project.id]. rewrite Hpid. cbn [negb].
    by rewrite app_nil_r.
  - reflexivity.
Qed.

Lemma dividends_of_snoc (k : string) (ds : list DividendPayout) (d : DividendPayout) :
  dividends_of k (ds ++ [d])
  = dividends_of k ds ++ (if str_eq (DividendPayout.partnerId d) k then [d] else []).
Proof. unfold dividends_of. rewrite List.filter_app. reflexivity. Qed.

Lemma addDividend_effect (ledger : AppState) (roster : list Partner)
    (rate dividendRate : number) (now pid : string) (gross : number) (date : string) :
  ∃ out0 out,
    computeFinancials ledger roster rate = Normal out0
    ∧ computeFinancials (addDividend dividendRate now pid gross date ledger) roster rate
      = Normal out
    ∧ Financials.summary out = Financials.summary out0
    ∧ Forall2 (fun ps0 ps =>
        if str_eq pid (PartnerFinancials.partnerId ps0)
        then ps = PartnerFinancials.mk
                    (PartnerFinancials.partnerId ps0) (PartnerFinancials.name ps0)
                    (PartnerFinancials.revenue ps0) (PartnerFinancials.expenseShare ps0)
                    (PartnerFinancials.taxableBase ps0)
                    (PartnerFinancials.corporateTaxShare ps0)
                    (PartnerFinancials.netProfitShare ps0)
                    (PartnerFinancials.dividendsTakenGross ps0 + gross)
                    (PartnerFinancials.dividendTaxPaid ps0 + gross * dividendRate)
                    (PartnerFinancials.netProfitShare ps0
                     - (PartnerFinancials.dividendsTakenGross ps0 + gross))
        else ps = ps0)
        (Financials.partnerStats out0) (Financials.partnerStats out).
Proof.
  returns. split; [apply computeFinancials_eq|]. split; [done|].
  cbn [financials_of Financials.partnerStats addDividend AppState.expenses].
  apply Forall2_fmap, Forall_Forall2_diag, Forall_forall. intros p _.
  unfold statement_of, addDividend.
  cbn [PartnerFinancials.partnerId AppState.payments AppState.dividends AppState.expenses].
  rewrite dividends_of_snoc. cbn [DividendPayout.partnerId].
  destruct (str_eq pid (Partner.id p)); [|by rewrite app_nil_r].
  rewrite !map_app. cbn [map]. rewrite !sum_of_snoc. reflexivity.
Qed.

(** X3. Recording a dividend with [addDividend] leaves the company summary
    as it was and changes the statement of no partner but the one it names;
    in that statement revenue, expense share, taxable base, tax share and net
    profit share stay, [dividendsTakenGross] grows by the gross amount,
    [dividendTaxPaid] by [gross * rate], and the balance is the net profit
    share minus the new [dividendsTakenGross]. *)
Theorem addDividend_changes_one_statement (ledger : AppState) (roster : list Partner)
    (rate dividendRate : number) (now pid : string) (gross : number) (date : string) :
  ∃ out0 out,
    computeFinancials ledger roster rate = Normal out0
    ∧ computeFinancials (addDividend dividendRate now pid gross date ledger) roster rate
      = Normal out
    ∧ Financials.summary out = Financials.summary out0
    ∧ Forall2 (fun ps0 ps =>
        if str_eq pid (PartnerFinancials.partnerId ps0)
        then ps = PartnerFinancials.mk
                    (PartnerFinancials.partnerId ps0) (PartnerFinancials.name ps0)
                    (PartnerFinancials.revenue ps0) (PartnerFinancials.expenseShare ps0)
                    (PartnerFinancials.taxableBase ps0)
                    (PartnerFinancials.corporateTaxShare ps0)
                    (PartnerFinancials.netProfitShare ps0)
                    (PartnerFinancials.dividendsTakenGross ps0 + gross)
                    (PartnerFinancials.dividendTaxPaid ps0 + gross * dividendRate)
                    (PartnerFinancials.netProfitShare ps0
                     - (PartnerFinancials.dividendsTakenGross ps0 + gross))
        else ps = ps0)
        (Financials.partnerStats out0) (Financials.partnerStats out).
Proof. apply addDividend_effect. Qed.

Lemma addPayment_effect (ledger : AppState) (roster : list Partner) (rate : number)
    (now projectId : string) (total : number) (date desc : string)
    (dists : list Distribution) :
  ∃ out0 out,
    computeFinancials ledger roster rate = Normal out0
    ∧ computeFinancials (addPayment now projectId total date desc dists ledger) roster rate
      = Normal out
    ∧ FinancialSummary.totalRevenue (Financials.summary out)
      = FinancialSummary.totalRevenue (Financials.summary out0) + total
    ∧ FinancialSummary.totalExpenses (Financials.summary out)
      = FinancialSummary.totalExpenses (Financials.summary out0)
    ∧ Forall2 (fun ps0 ps =>
        PartnerFinancials.revenue ps
        = PartnerFinancials.revenue ps0
          + match List.find (fun d => str_eq (Distribution.partnerId d)
                                        (PartnerFinancials.partnerId ps0)) dists with
            | Some d => Distribution.amount d
            | None => 0
            end
        ∧ PartnerFinancials.expenseShare ps = PartnerFinancials.expenseShare ps0
        ∧ PartnerFinancials.dividendsTakenGross ps = PartnerFinancials.dividendsTakenGross ps0
        ∧ PartnerFinancials.dividendTaxPaid ps = PartnerFinancials.dividendTaxPaid ps0)
        (Financials.partnerStats out0) (Financials.partnerStats out).
Proof.
  returns. split; [apply computeFinancials_eq|].
  cbn [financials_of Financials.summary Financials.partnerStats summary_of
       FinancialSummary.totalRevenue FinancialSummary.totalExpenses addPayment
       AppState.payments AppState.expenses].
  rewrite map_app. cbn [map]. rewrite sum_of_snoc. split; [done|]. split; [done|].
  apply Forall2_fmap, Forall_Forall2_diag, Forall_forall. intros p _.
  unfold statement_of, addPayment.
  cbn [PartnerFinancials.partnerId PartnerFinancials.revenue PartnerFinancials.expenseShare
       PartnerFinancials.dividendsTakenGross PartnerFinancials.dividendTaxPaid
       AppState.payments AppState.dividends AppState.expenses].
  rewrite map_app. cbn [map]. by rewrite sum_of_snoc.
Qed.

(** X4. Recording a payment with [addPayment] adds its total to
    [totalRevenue] and leaves [totalExpenses]; in every statement the revenue
    grows by the amount of the first entry of the payment that names the
    partner (by 0 when none does), while the expense share and the dividend
    figures stay. *)
Theorem addPayment_adds_revenue (ledger : AppState) (roster : list Partner) (rate : number)
    (now projectId : string) (total : number) (date desc : string)
    (dists : list Distribution) :
  ∃ out0 out,
    computeFinancials ledger roster rate = Normal out0
    ∧ computeFinancials (addPayment now projectId total date desc dists ledger) roster rate
      = Normal out
    ∧ FinancialSummary.totalRevenue (Financials.summary out)
      = FinancialSummary.totalRevenue (Financials.summary out0) + total
    ∧ FinancialSummary.totalExpenses (Financials.summary out)
      = FinancialSummary.totalExpenses (Financials.summary out0)
    ∧ Forall2 (fun ps0 ps =>
        PartnerFinancials.revenue ps
        = PartnerFinancials.revenue ps0
          + match List.find (fun d => str_eq (Distribution.partnerId d)
                                        (PartnerFinancials.partnerId ps0)) dists with
            | Some d => Distribution.amount d
            | None => 0
            end
        ∧ PartnerFinancials.expenseShare ps = PartnerFinancials.expenseShare ps0
        ∧ PartnerFinancials.dividendsTakenGross ps = PartnerFinancials.dividendsTakenGross ps0
        ∧ PartnerFinancials.dividendTaxPaid ps = PartnerFinancials.dividendTaxPaid ps0)
        (Financials.partnerStats out0) (Financials.partnerStats out).
Proof. apply addPayment_effect. Qed.

(** X5. Recording an expense with [addExpense] adds its amount to
    [totalExpenses] and leaves [totalRevenue]; in every statement the
    revenue and the dividend figures stay. *)
Theorem addExpense_adds_to_total (ledger : AppState) (roster : list Partner) (rate : number)
    (now desc : string) (amount : number) (date category : string)
    (dists : list Distribution) :
  ∃ out0 out,
    computeFinancials ledger roster rate = Normal out0
    ∧ computeFinancials (addExpense now desc amount date category dists ledger) roster rate
      = Normal out
    ∧ FinancialSummary.totalExpenses (Financials.summary out)
      = FinancialSummary.totalExpenses (Financials.summary out0) + amount
    ∧ FinancialSummary.totalRevenue (Financials.summary out)
      = FinancialSummary.totalRevenue (Financials.summary out0)
    ∧ Forall2 (fun ps0 ps =>
        PartnerFinancials.partnerId ps = PartnerFinancials.partnerId ps0
        ∧ PartnerFinancials.revenue ps = PartnerFinancials.revenue ps0
        ∧ PartnerFinancials.dividendsTakenGross ps = PartnerFinancials.dividendsTakenGross ps0
        ∧ PartnerFinancials.dividendTaxPaid ps = PartnerFinancials.dividendTaxPaid ps0)
        (Financials.partnerStats out0) (Financials.partnerStats out).
Proof.
  returns. split; [apply computeFinancials_eq|].
  cbn [financials_of Financials.summary Financials.partnerStats summary_of
       FinancialSummary.totalRevenue FinancialSummary.totalExpenses addExpense
       record_expense AppState.payments AppState.expenses Expense.amount].
  rewrite map_app. cbn [map]. rewrite sum_of_snoc. split; [done|]. split; [done|].
  apply Forall2_fmap, Forall_Forall2_diag, Forall_forall. intros p _. done.
Qed.

(** X6. Dividend records that name an id outside the roster reach no
    statement: removing them from the ledger changes nothing in the
    result. *)
Theorem unknown_dividends_ignored (ledger : AppState) (roster : list Partner)
    (rate : number) :
  computeFinancials
    (AppState.mk (AppState.projects ledger) (AppState.payments ledger)
       (AppState.expenses ledger)
       (List.filter (fun d => in_roster roster (DividendPayout.partnerId d))
          (AppState.dividends ledger))) roster rate
  = computeFinancials ledger roster rate.
Proof.
  rewrite !computeFinancials_eq. apply f_equal. unfold financials_of. f_equal.
  apply map_ext_in. intros p Hp. apply list_elem_of_In, in_roster_self in Hp.
  unfold statement_of. cbn [AppState.payments AppState.dividends AppState.expenses].
  assert (dividends_of (Partner.id p)
            (List.filter (fun d => in_roster roster (DividendPayout.partnerId d))
               (AppState.dividends ledger))
          = dividends_of (Partner.id p) (AppState.dividends ledger)) as ->; [|done].
  unfold dividends_of. induction (AppState.dividends ledger) as [|d ds IH]; [done|].
  cbn [List.filter].
  destruct (in_roster roster (DividendPayout.partnerId d)) eqn:Hd; cbn [List.filter].
  - by rewrite IH.
  - rewrite IH. destruct (str_eq (DividendPayout.partnerId d) (Partner.id p)) eqn:E; [|done].
    apply str_eq_true in E. congruence.
Qed.

(** ** Edge cases of the engine *)

Lemma sub_zero_r (x : number) : x - 0 = x.
Proof.
  apply Prim2SF_inj. rewrite sub_spec. change (Prim2SF 0) with (S754_zero false).
  by destruct (Prim2SF x) as [[]|[]| |].
Qed.

Lemma sub_nan_r (x y : number) : is_nan y = true → is_nan (x - y) = true.
Proof.
  rewrite !is_nan_spec, sub_spec. intros ->. by destruct (Prim2SF x) as [[]|[]| |].
Qed.

Lemma add_nan_r (x y : number) : is_nan y = true → is_nan (x + y) = true.
Proof.
  rewrite !is_nan_spec, add_spec. intros ->. by destruct (Prim2SF x) as [[]|[]| |].
Qed.

Lemma div_nan_l (x y : number) : is_nan x = true → is_nan (x / y) = true.
Proof. rewrite !is_nan_spec, div_spec. by intros ->. Qed.

Lemma orElse_nan (y : number) : is_nan y = true → orElse (Some y) 0 = 0.
Proof. intros Hy. unfold orElse, truthy. by rewrite Hy, orb_true_r. Qed.

Lemma orElse_not_nan (v : option number) : is_nan (orElse v 0) = false.
Proof.
  unfold orElse, truthy. destruct v as [x|]; [|done].
  destruct (is_nan x) eqn:Hx; [by rewrite orb_true_r|].
  by destruct (PrimFloat.is_zero x).
Qed.

(** X7. On a ledger without payments, expenses and dividends, whatever its
    projects and whatever the roster, every figure of the summary and of
    every statement is 0. *)
Theorem empty_ledger_all_zero (projects : list Project) (roster : list Partner) :
  computeFinancials (AppState.mk projects [] [] []) roster constants.TAX_RATE
  = Normal (Financials.mk (FinancialSummary.mk 0 0 0 0 0)
              (map (fun p => PartnerFinancials.mk (Partner.id p) (Partner.name p)
                               0 0 0 0 0 0 0 0) roster)).
Proof.
  rewrite computeFinancials_eq. apply f_equal. unfold financials_of. f_equal.
  apply map_ext_in. intros p Hp. apply list_elem_of_In, in_roster_self in Hp.
  unfold statement_of, expense_map.
  cbn [AppState.payments AppState.expenses AppState.dividends fold_left].
  rewrite init_lookup, Hp. reflexivity.
Qed.

(** X8. A company that makes no profit pays no tax and its net profit is
    the difference itself: when [totalRevenue - totalExpenses] is a number
    that is not positive, [taxableProfit] and [corporateTax] are 0 and
    [netProfit] is that difference; when it is [NaN], the three figures are
    [NaN].  A partner whose taxable base is not positive ([NaN] included)
    has a tax share of 0 and a net profit share equal to the base. *)
Theorem loss_is_carried_unchanged (ledger : AppState) (roster : list Partner) :
  ∃ out, computeFinancials ledger roster constants.TAX_RATE = Normal out
    ∧ (let s := Financials.summary out in
       let diff := FinancialSummary.totalRevenue s - FinancialSummary.totalExpenses s in
       if 0 <? diff then FinancialSummary.taxableProfit s = diff
       else if is_nan diff
       then is_nan (FinancialSummary.taxableProfit s) = true
            ∧ is_nan (FinancialSummary.corporateTax s) = true
            ∧ is_nan (FinancialSummary.netProfit s) = true
       else FinancialSummary.taxableProfit s = 0
            ∧ FinancialSummary.corporateTax s = 0
            ∧ FinancialSummary.netProfit s = diff)
    ∧ Forall (fun ps =>
        (0 <? PartnerFinancials.taxableBase ps) = true
        ∨ (PartnerFinancials.corporateTaxShare ps = 0
           ∧ PartnerFinancials.netProfitShare ps = PartnerFinancials.taxableBase ps))
        (Financials.partnerStats out).
Proof.
  returns. split.
  - cbn [financials_of Financials.summary summary_of FinancialSummary.totalRevenue
         FinancialSummary.totalExpenses FinancialSummary.taxableProfit
         FinancialSummary.corporateTax FinancialSummary.netProfit].
    rewrite Math_max_zero.
    set (diff := sum_of (map Payment.totalAmount (AppState.payments ledger))
                 - sum_of (map Expense.amount (AppState.expenses ledger))).
    destruct (is_nan diff) eqn:Hnan.
    + assert ((0 <? diff) = false) as ->.
      { apply is_nan_spec in Hnan. rewrite ltb_spec, Hnan. reflexivity. }
      split; [done|]. split; [done|]. by apply sub_nan_r.
    + destruct (0 <? diff); [done|].
      change (0 * constants.TAX_RATE) with 0. by rewrite sub_zero_r.
  - apply Forall_forall. intros ps Hps. apply list_elem_of_In, in_map_iff in Hps.
    destruct Hps as (p & <- & _). unfold statement_of.
    cbn [PartnerFinancials.taxableBase PartnerFinancials.corporateTaxShare
         PartnerFinancials.netProfitShare].
    match goal with |- (0 <? ?b) = true ∨ _ => destruct (0 <? b); [by left|right] end.
    by rewrite sub_zero_r.
Qed.

(** X9. The expense share of a statement is never [NaN]: it is read as
    [partnerExpenseMap[id] || 0], which turns [NaN] into 0. *)
Theorem expenseShare_is_never_NaN (ledger : AppState) (roster : list Partner)
    (rate : number) :
  ∃ out, computeFinancials ledger roster rate = Normal out
    ∧ Forall (fun ps => is_nan (PartnerFinancials.expenseShare ps) = false)
        (Financials.partnerStats out).
Proof.
  returns. apply Forall_forall. intros ps Hps.
  apply list_elem_of_In, in_map_iff in Hps. destruct Hps as (p & <- & _).
  apply orElse_not_nan.
Qed.

(** X10. An expense without distributions whose amount is [NaN] hides the
    expenses recorded before it: once the engine has processed it, the
    property of every roster partner in [partnerExpenseMap] is [NaN], and
    the expense share of every statement is 0. *)
Theorem NaN_expense_zeroes_expense_shares (ledger : AppState) (roster : list Partner)
    (rate : number) (e : Expense) :
  NoDup (map Partner.id roster) →
  Expense.distributions e = None ∨ Expense.distributions e = Some [] →
  is_nan (Expense.amount e) = true →
  ∃ out, computeFinancials (record_expense e ledger) roster rate = Normal out
    ∧ Forall (fun ps => PartnerFinancials.expenseShare ps = 0)
        (Financials.partnerStats out)
    ∧ Forall (fun p => ∃ acc,
                partnerExpenseMap_after (record_expense e ledger) roster rate
                  !! Partner.id p = Some acc
                ∧ is_nan acc = true) roster.
Proof.
  intros Hnd He Hnan.
  assert (∀ p, p ∈ roster → ∃ acc,
            expense_map roster (AppState.expenses ledger ++ [e]) !! Partner.id p = Some acc
            ∧ is_nan acc = true) as Hacc.
  { intros p Hp. apply in_roster_self in Hp. rewrite expense_map_snoc.
    assert (expense_step roster (expense_map roster (AppState.expenses ledger)) e
            = fold_left (split_step (Expense.amount e / length_of roster)) roster
                (expense_map roster (AppState.expenses ledger))) as ->.
    { unfold expense_step. by destruct He as [-> | ->]. }
    rewrite split_lookup, Hp by done. eexists. split; [done|].
    by apply add_nan_r, div_nan_l. }
  returns. split.
  - apply Forall_forall. intros ps Hps. apply list_elem_of_In, in_map_iff in Hps.
    destruct Hps as (p & <- & Hp). apply list_elem_of_In in Hp.
    destruct (Hacc p Hp) as (acc & Hlook & Hn).
    unfold statement_of. cbn [PartnerFinancials.expenseShare record_expense AppState.expenses].
    rewrite Hlook. by apply orElse_nan.
  - apply Forall_forall. intros p Hp. rewrite partnerExpenseMap_after_eq. by apply Hacc.
Qed.

Lemma NaN_expense_zeroes_expense_shares_witness :
  ∃ out, computeFinancials (record_expense (Samples.cost nan None) Samples.loss)
           constants.PARTNERS constants.TAX_RATE = Normal out
    ∧ Forall (fun ps => PartnerFinancials.expenseShare ps = 0)
        (Financials.partnerStats out)
    ∧ Forall (fun p => ∃ acc,
                partnerExpenseMap_after (record_expense (Samples.cost nan None) Samples.loss)
                  constants.PARTNERS constants.TAX_RATE !! Partner.id p = Some acc
                ∧ is_nan acc = true) constants.PARTNERS.
Proof.
  apply (NaN_expense_zeroes_expense_shares Samples.loss constants.PARTNERS
           constants.TAX_RATE (Samples.cost nan None)).
  - apply (bool_decide_unpack _). vm_compute. reflexivity.
  - left. reflexivity.
  - reflexivity.
Defined.

(** ** The monthly aggregation *)

Section MonthlyRows.

Variable inherits : string -> Inherited.
Variable month_of : string -> string.

Lemma month_init_lookup (month k : string) (m : gmap string MonthRow) :
  month_init inherits month m !! k
  = match m !! k with
    | Some r => Some r
    | None =>
        if str_eq month k
        then match inherits k with
             | NotInherited => Some (MonthRow.mk k 0 0)
             | Member _ | Accessor _ => None
             end
        else None
    end.
Proof.
  unfold month_init. destruct (str_eq month k) eqn:E.
  - apply str_eq_true in E as ->. destruct (m !! k) eqn:Hk; rewrite ?Hk; [done|].
    destruct (inherits k); [by rewrite lookup_insert_eq|by rewrite Hk..].
  - apply str_eq_false in E. destruct (m !! month) eqn:Hm.
    + by destruct (m !! k).
    + destruct (inherits month); rewrite ?lookup_insert_ne by done; by destruct (m !! k).
Qed.

Lemma month_payment_fold (ps : list Payment) (m0 : gmap string MonthRow) (k : string) :
  fold_left (month_payment_step inherits month_of) ps m0 !! k
  = let mine := map Payment.totalAmount
                  (List.filter (fun p => str_eq (month_of (Payment.date p)) k) ps) in
    match m0 !! k with
    | Some r => Some (MonthRow.mk (MonthRow.name r) (fold_left add mine (MonthRow.income r))
                        (MonthRow.expense r))
    | None =>
        match inherits k, mine with
        | NotInherited, _ :: _ => Some (MonthRow.mk k (fold_left add mine 0) 0)
        | _, _ => None
        end
    end.
Proof.
  revert m0. induction ps as [|p ps IH]; intros m0; cbn [fold_left List.filter].
  - cbn. destruct (m0 !! k) as [[]|]; [done|]. by destruct (inherits k).
  - rewrite IH. clear IH. unfold month_payment_step.
    destruct (str_eq (month_of (Payment.date p)) k) eqn:E.
    + apply str_eq_true in E. rewrite E, lookup_alter_eq, month_init_lookup.
      assert (str_eq k k = true) as -> by by apply str_eq_true.
      destruct (m0 !! k) as [[]|]; [done|].
      destruct (inherits k); cbn; try done;
        by match goal with |- context [List.filter ?f ps] => destruct (List.filter f ps) end.
    + apply str_eq_false in E.
      rewrite lookup_alter_ne, month_init_lookup by done.
      apply str_eq_false in E. rewrite E. by destruct (m0 !! k).
Qed.

Lemma month_expense_fold (es : list Expense) (m0 : gmap string MonthRow) (k : string) :
  fold_left (month_expense_step inherits month_of) es m0 !! k
  = let mine := map Expense.amount
                  (List.filter (fun e => str_eq (month_of (Expense.date e)) k) es) in
    match m0 !! k with
    | Some r => Some (MonthRow.mk (MonthRow.name r) (MonthRow.income r)
                        (fold_left add mine (MonthRow.expense r)))
    | None =>
        match inherits k, mine with
        | NotInherited, _ :: _ => Some (MonthRow.mk k 0 (fold_left add mine 0))
        | _, _ => None
        end
    end.
Proof.
  revert m0. induction es as [|e es IH]; intros m0; cbn [fold_left List.filter].
  - cbn. destruct (m0 !! k) as [[]|]; [done|]. by destruct (inherits k).
  - rewrite IH. clear IH. unfold month_expense_step.
    destruct (str_eq (month_of (Expense.date e)) k) eqn:E.
    + apply str_eq_true in E. rewrite E, lookup_alter_eq, month_init_lookup.
      assert (str_eq k k = true) as -> by by apply str_eq_true.
      destruct (m0 !! k) as [[]|]; [done|].
      destruct (inherits k); cbn; try done;
        by match goal with |- context [List.filter ?f es] => destruct (List.filter f es) end.
    + apply str_eq_false in E.
      rewrite lookup_alter_ne, month_init_lookup by done.
      apply str_eq_false in E. rewrite E. by destruct (m0 !! k).
Qed.

(** X11. For a month that does not name a member of [Object.prototype], the
    monthly aggregation has a row exactly when a payment or an expense of
    the ledger falls in that month; the row bears the month as its name, its
    income is the sum of the totals of the payments of the month and its
    expense the sum of the amounts of the expenses of the month, each added
    from 0 in ledger order.  For a month that names an inherited member
    (a date that begins with 'valueOf', say) the aggregation never has a
    row: the amounts of that month are written on the inherited member and
    appear in no row. *)
Theorem monthlyMap_rows (state : AppState) (month : string) :
  let incomes :=
    map Payment.totalAmount
      (List.filter (fun p => str_eq (month_of (Payment.date p)) month)
         (AppState.payments state)) in
  let costs :=
    map Expense.amount
      (List.filter (fun e => str_eq (month_of (Expense.date e)) month)
         (AppState.expenses state)) in
  monthlyMap inherits month_of state !! month
  = match inherits month with
    | NotInherited =>
        match incomes, costs with
        | [], [] => None
        | _, _ => Some (MonthRow.mk month (sum_of incomes) (sum_of costs))
        end
    | Member _ | Accessor _ => None
    end.
Proof.
  intros incomes costs. unfold monthlyMap.
  rewrite month_expense_fold, month_payment_fold, lookup_empty.
  fold incomes costs. unfold sum_of.
  destruct (inherits month);
    destruct incomes as [|i incomes]; destruct costs as [|c costs]; reflexivity.
Qed.

End MonthlyRows.

(** ** The period report *)

Lemma filter_all {A : Type} (f : A → bool) (l : list A) :
  Forall (fun x => f x = true) l → List.filter f l = l.
Proof. induction 1 as [|x l Hx _ IH]; simpl; [done|]. by rewrite Hx, IH. Qed.

Lemma project_label_deleted (pid : string) (projects : list Project) :
  project_label
    (List.filter (fun pr => negb (str_eq (Project.id pr) pid)) projects) pid
  = "Неизвестен".
Proof.
  unfold project_label. induction projects as [|pr prs IH]; [done|].
  cbn [List.filter]. destruct (str_eq (Project.id pr) pid) eqn:E; cbn [negb]; [done|].
  cbn [List.find]. by rewrite E.
Qed.

Lemma is_empty_append (s t : string) :
  is_empty s = false → is_empty (String.append s t) = false.
Proof. by destruct s. Qed.

Section Cells.

Variable inherits : string -> Inherited.
Variable show : number -> string.

Lemma next_cell_None (inherited : Inherited) (v : option Cell) (amount : number) :
  next_cell show inherited v amount = None → v = None.
Proof.
  destruct v as [[x|s]|]; cbn; [done| |done]. by destruct (is_empty s).
Qed.

Lemma add_to_fold {A : Type} (key : A → string) (amount : A → number) (l : list A)
    (m0 : gmap string Cell) (k : string) :
  fold_left (fun totals x => add_to inherits show (key x) (amount x) totals) l m0 !! k
  = fold_left (fun v x => next_cell show (inherits k) v (amount x))
      (List.filter (fun x => str_eq (key x) k) l) (m0 !! k).
Proof.
  revert m0. induction l as [|x l IH]; intros m0; cbn [fold_left List.filter]; [done|].
  rewrite IH. unfold add_to. destruct (str_eq (key x) k) eqn:E; cbn [fold_left].
  - apply str_eq_true in E as <-.
    destruct (next_cell show (inherits (key x)) (m0 !! key x) (amount x)) as [c|] eqn:Hc.
    + by rewrite lookup_insert_eq.
    + by rewrite (next_cell_None _ _ _ Hc).
  - apply str_eq_false in E.
    destruct (next_cell show (inherits (key x)) (m0 !! key x) (amount x));
      by rewrite ?lookup_insert_ne.
Qed.

(** A key that inherits nothing holds a number: the running sum. *)
Lemma cells_numeric {A : Type} (amount : A → number) (l : list A) (v0 : option number) :
  fold_left (fun v x => next_cell show NotInherited v (amount x)) l (Num <$> v0)
  = Num <$> fold_left (fun v x => Some (orElse v 0 + amount x)) l v0.
Proof.
  revert v0. induction l as [|x l IH]; intros v0; cbn [fold_left]; [done|].
  rewrite <- IH. by destruct v0.
Qed.

(** A key that names an accessor never gets a property. *)
Lemma cells_accessor {A : Type} (amount : A → number) (l : list A) (text : string) :
  fold_left (fun v x => next_cell show (Accessor text) v (amount x)) l None = None.
Proof. induction l as [|x l IH]; cbn [fold_left]; done. Qed.

(** Once a key holds a string that is not empty, every amount is appended
    to it. *)
Lemma cells_text {A : Type} (amount : A → number) (inherited : Inherited) (l : list A)
    (s : string) :
  is_empty s = false →
  fold_left (fun v x => next_cell show inherited v (amount x)) l (Some (Str s))
  = Some (Str (fold_left (fun s x => String.append s (show (amount x))) l s)).
Proof.
  revert s. induction l as [|x l IH]; intros s Hs; cbn [fold_left]; [done|].
  cbn [next_cell]. rewrite Hs. apply IH. by apply is_empty_append.
Qed.

Lemma cells_member {A : Type} (amount : A → number) (l : list A) (text : string) :
  is_empty text = false →
  fold_left (fun v x => next_cell show (Member text) v (amount x)) l None
  = match l with
    | [] => None
    | _ :: _ => Some (Str (fold_left (fun s x => String.append s (show (amount x))) l text))
    end.
Proof.
  intros Ht. destruct l as [|x l]; [done|]. cbn [fold_left next_cell].
  apply cells_text. by apply is_empty_append.
Qed.

End Cells.

Section PeriodReport.

Variable inherits : string -> Inherited.
Variable show : number -> string.
Variables (str_ge str_le : string -> string -> bool).

(** X12. When every payment and every expense of the ledger is dated within
    the period, the report of the period has the revenue and the expense
    total of the engine's summary; unless their difference is [NaN] it also
    has the same tax and the same net profit.  When the difference is [NaN]
    the two disagree: the report shows a tax of 0 where the summary has
    [NaN]. *)
Theorem periodData_agrees_with_summary (state : AppState) (roster : list Partner)
    (startDate endDate : string) :
  Forall (fun p => in_period str_ge str_le startDate endDate (Payment.date p) = true)
    (AppState.payments state) →
  Forall (fun e => in_period str_ge str_le startDate endDate (Expense.date e) = true)
    (AppState.expenses state) →
  ∃ out, computeFinancials state roster constants.TAX_RATE = Normal out
    ∧ (let s := Financials.summary out in
       let r := periodData inherits show str_ge str_le state startDate endDate in
       PeriodData.revenue r = FinancialSummary.totalRevenue s
       ∧ PeriodData.expenseTotal r = FinancialSummary.totalExpenses s
       ∧ if is_nan (PeriodData.profitBeforeTax r)
         then PeriodData.tax r = 0 ∧ is_nan (FinancialSummary.corporateTax s) = true
         else PeriodData.tax r = FinancialSummary.corporateTax s
              ∧ PeriodData.netProfit r = FinancialSummary.netProfit s).
Proof.
  intros Hp He. returns.
  cbn [financials_of Financials.summary summary_of FinancialSummary.totalRevenue
       FinancialSummary.totalExpenses FinancialSummary.corporateTax
       FinancialSummary.netProfit].
  unfold periodData.
  cbn [PeriodData.revenue PeriodData.expenseTotal PeriodData.profitBeforeTax
       PeriodData.tax PeriodData.netProfit].
  rewrite (filter_all _ _ Hp), (filter_all _ _ He), !reduce_sum_of, Math_max_zero.
  split; [done|]. split; [done|].
  set (diff := sum_of (map Payment.totalAmount (AppState.payments state))
               - sum_of (map Expense.amount (AppState.expenses state))).
  destruct (is_nan diff) eqn:Hnan.
  - assert ((0 <? diff) = false) as ->.
    { apply is_nan_spec in Hnan. rewrite ltb_spec, Hnan. reflexivity. }
    done.
  - by destruct (0 <? diff).
Qed.

(** X13. In the period report the payments are grouped by project name and
    the expenses by category.  What the report holds under a name is the
    result of [(value || 0) + amount], payment after payment, over the
    payments of the period whose project has that name, started from what
    the name inherits from [Object.prototype].  For a name that inherits
    nothing this is the sum of the totals of those payments.  For a name
    that is a member of [Object.prototype] (a project called 'constructor',
    say) it is no number but a string: the text of the inherited member
    followed by the amounts, one after the other.  For an inherited
    accessor ('__proto__') the report holds nothing.  A payment whose
    project was deleted is counted under 'Неизвестен', and so is a payment
    whose project has an empty name. *)
Theorem periodData_groups (state : AppState) (startDate endDate : string) (k : string) :
  let r := periodData inherits show str_ge str_le state startDate endDate in
  let payments :=
    List.filter (fun p => str_eq (project_label (AppState.projects state)
                                    (Payment.projectId p)) k)
      (List.filter (fun p => in_period str_ge str_le startDate endDate (Payment.date p))
         (AppState.payments state)) in
  let expenses :=
    List.filter (fun e => str_eq (Expense.category e) k)
      (List.filter (fun e => in_period str_ge str_le startDate endDate (Expense.date e))
         (AppState.expenses state)) in
  PeriodData.byProject r !! k
  = fold_left (fun v p => next_cell show (inherits k) v (Payment.totalAmount p))
      payments None
  ∧ PeriodData.byCategory r !! k
    = fold_left (fun v e => next_cell show (inherits k) v (Expense.amount e))
        expenses None
  ∧ match inherits k with
    | NotInherited =>
        PeriodData.byProject r !! k
        = Num <$> fold_left (fun v p => Some (orElse v 0 + Payment.totalAmount p))
                    payments None
        ∧ PeriodData.byCategory r !! k
          = Num <$> fold_left (fun v e => Some (orElse v 0 + Expense.amount e))
                      expenses None
    | Member text =>
        if is_empty text then True
        else
          PeriodData.byProject r !! k
          = match payments with
            | [] => None
            | _ :: _ =>
                Some (Str (fold_left
                             (fun s p => String.append s (show (Payment.totalAmount p)))
                             payments text))
            end
          ∧ PeriodData.byCategory r !! k
            = match expenses with
              | [] => None
              | _ :: _ =>
                  Some (Str (fold_left
                               (fun s e => String.append s (show (Expense.amount e)))
                               expenses text))
              end
    | Accessor _ =>
        PeriodData.byProject r !! k = None ∧ PeriodData.byCategory r !! k = None
    end
  ∧ (∀ pid, project_label (AppState.projects (deleteProject pid state)) pid = "Неизвестен")
  ∧ (∀ id desc type status createdAt rest,
       project_label (Project.mk id "" desc type status createdAt :: rest) id
       = "Неизвестен").
Proof.
  intros r payments expenses.
  assert (PeriodData.byProject r !! k
          = fold_left (fun v p => next_cell show (inherits k) v (Payment.totalAmount p))
              payments None) as HP.
  { subst r payments. unfold periodData. cbn [PeriodData.byProject].
    by rewrite (add_to_fold inherits show
                  (fun p => project_label _ (Payment.projectId p)) Payment.totalAmount),
         lookup_empty. }
  assert (PeriodData.byCategory r !! k
          = fold_left (fun v e => next_cell show (inherits k) v (Expense.amount e))
              expenses None) as HC.
  { subst r expenses. unfold periodData. cbn [PeriodData.byCategory].
    by rewrite (add_to_fold inherits show Expense.category Expense.amount), lookup_empty. }
  split; [exact HP|]. split; [exact HC|]. split; [|split].
  - rewrite HP, HC. destruct (inherits k) as [|text|text].
    + split; apply (cells_numeric show _ _ None).
    + destruct (is_empty text) eqn:Ht; [done|]. split; by apply cells_member.
    + split; apply cells_accessor.
  - intros pid. apply project_label_deleted.
  - intros id desc type status createdAt rest. unfold project_label. cbn [List.find Project.id].
    assert (str_eq id id = true) as -> by by apply str_eq_true. reflexivity.
Qed.

End PeriodReport.

Lemma periodData_agrees_with_summary_witness :
  ∃ out, computeFinancials Samples.loss constants.PARTNERS constants.TAX_RATE = Normal out
    ∧ (let s := Financials.summary out in
       let r := periodData Object_prototype (fun _ => "") (fun a b => String.leb b a)
                  String.leb Samples.loss
                  "2024-01-01" "2024-01-31" in
       PeriodData.revenue r = FinancialSummary.totalRevenue s
       ∧ PeriodData.expenseTotal r = FinancialSummary.totalExpenses s
       ∧ if is_nan (PeriodData.profitBeforeTax r)
         then PeriodData.tax r = 0 ∧ is_nan (FinancialSummary.corporateTax s) = true
         else PeriodData.tax r = FinancialSummary.corporateTax s
              ∧ PeriodData.netProfit r = FinancialSummary.netProfit s).
Proof.
  apply (periodData_agrees_with_summary Object_prototype (fun _ => "")
           (fun a b => String.leb b a) String.leb Samples.loss constants.PARTNERS "2024-01-01" "2024-01-31").
  - repeat constructor.
  - repeat constructor.
Defined.

(** With the standard [Object.prototype]: a payment of 100 for a project
    named 'constructor' puts a string in the report, and a payment dated
    'valueOf' gets no monthly row. *)
Example byProject_constructor (show : number → string) :
  add_to Object_prototype show "constructor" 100 ∅ !! "constructor"
  = Some (Str (String.append "function Object() { [native code] }" (show 100))).
Proof. reflexivity. Qed.

Example monthlyMap_valueOf :
  month_payment_step Object_prototype (fun _ => "valueOf") ∅ (Samples.pay 100 []) = ∅
  ∧ month_payment_step Object_prototype (fun _ => "2024-01") ∅ (Samples.pay 100 [])
      !! "2024-01"
    = Some (MonthRow.mk "2024-01" (0 + 100) 0).
Proof. split; reflexivity. Qed.

(** ** The save handlers of the entry views *)

Lemma PARTNERS_NoDup : NoDup (map Partner.id constants.PARTNERS).
Proof. apply (bool_decide_unpack _). vm_compute. reflexivity. Qed.

(** What the equal split of one more expense does to the properties of the
    roster partners. *)
Lemma equal_split_lookup (ledger : AppState) (roster : list Partner) (rate : number)
    (now desc : string) (amount : number) (date category : string) (p : Partner) :
  NoDup (map Partner.id roster) → p ∈ roster →
  ∃ acc, partnerExpenseMap_after ledger roster rate !! Partner.id p = Some acc
    ∧ partnerExpenseMap_after (addExpense now desc amount date category [] ledger)
        roster rate !! Partner.id p
      = Some (acc + amount / length_of roster).
Proof.
  intros Hnd Hp. apply in_roster_self in Hp. rewrite !partnerExpenseMap_after_eq.
  destruct (expense_map_is_Some roster (AppState.expenses ledger) _ Hp) as [acc Hacc].
  exists acc. split; [done|]. unfold addExpense.
  cbn [record_expense AppState.expenses]. rewrite expense_map_snoc.
  unfold expense_step. cbn [Expense.distributions Expense.amount].
  by rewrite split_lookup, Hp, Hacc.
Qed.

Section ViewHandlers.

Variable parseFloat : string -> number.

(** X14. ExpensesView: [handleSave] does nothing when the amount does not
    parse to a number other than 0 and [NaN], or when the description is
    empty.  Otherwise it records one expense of [parseFloat(amount) * rate]
    (rate 1.95583 for EUR, 1 for BGN), and the engine then adds to
    [partnerExpenseMap]: a third of it to each of the three partners for the
    type general (the equal split), half of it to p1 and to p2 and nothing
    to p3 for plamen_svetlo, all of it to the selected partner and nothing
    to anyone else for individual. *)
Theorem ExpensesView_handleSave_effect (now : string) (form : ExpenseForm)
    (state : AppState) :
  let v := parseFloat (ExpenseForm.amount form) in
  let amt := v * rate_of (ExpenseForm.currency form) in
  ∃ form' state' alerts,
    ExpensesView_handleSave parseFloat now form state = (form', state', alerts)
    ∧ if negb (truthy v) || is_empty (ExpenseForm.desc form)
      then form' = form ∧ state' = state ∧ alerts = []
      else
        let before :=
          partnerExpenseMap_after state constants.PARTNERS constants.TAX_RATE in
        let after :=
          partnerExpenseMap_after state' constants.PARTNERS constants.TAX_RATE in
        (∃ e, AppState.expenses state' = AppState.expenses state ++ [e]
              ∧ Expense.amount e = amt)
        ∧ match ExpenseForm.distType form with
          | general =>
              Forall (fun p => ∃ acc, before !! Partner.id p = Some acc
                                 ∧ after !! Partner.id p = Some (acc + amt / 3))
                constants.PARTNERS
          | plamen_svetlo =>
              after !! "p1" = Some (orElse (before !! "p1") 0 + amt / 2)
              ∧ after !! "p2" = Some (orElse (before !! "p2") 0 + amt / 2)
              ∧ after !! "p3" = before !! "p3"
          | individual =>
              ∀ k, after !! k
                   = if str_eq (ExpenseForm.selectedPartner form) k
                     then Some (orElse (before !! k) 0 + amt)
                     else before !! k
          end.
Proof.
  intros v amt. unfold ExpensesView_handleSave. fold v. fold amt.
  destruct (negb (truthy v) || is_empty (ExpenseForm.desc form)).
  { eexists _, _, _. split; [reflexivity|]. done. }
  eexists _, _, _. split; [reflexivity|]. cbv zeta. split.
  { eexists. split; reflexivity. }
  destruct (ExpenseForm.distType form).
  - apply Forall_forall. intros p Hp.
    change 3 with (length_of constants.PARTNERS).
    by apply equal_split_lookup; [apply PARTNERS_NoDup|].
  - rewrite !explicit_expense_lookup by done. repeat split.
  - intros k. rewrite explicit_expense_lookup by done.
    unfold entries_for. cbn [List.filter Distribution.partnerId].
    by destruct (str_eq (ExpenseForm.selectedPartner form) k).
Qed.

(** X15. DividendsView: [handlePay] does nothing when the amount does not
    parse to a number other than 0 and [NaN].  Otherwise it records a
    dividend of [parseFloat(grossAmount) * rate] for the selected partner,
    after which the engine returns the same summary, the same statement for
    every other partner, and for the selected one the same figures except
    [dividendsTakenGross], [dividendTaxPaid] (grown by 5% of the amount) and
    the balance. *)
Theorem DividendsView_handlePay_effect (now : string) (form : DividendForm)
    (state : AppState) (roster : list Partner) (rate : number) :
  let v := parseFloat (DividendForm.grossAmount form) in
  let gross := v * rate_of (DividendForm.currency form) in
  ∃ form' state' alerts,
    DividendsView_handlePay parseFloat now form state = (form', state', alerts)
    ∧ if negb (truthy v)
      then form' = form ∧ state' = state ∧ alerts = []
      else
        ∃ out0 out,
          computeFinancials state roster rate = Normal out0
          ∧ computeFinancials state' roster rate = Normal out
          ∧ Financials.summary out = Financials.summary out0
          ∧ Forall2 (fun ps0 ps =>
              if str_eq (DividendForm.selectedPid form) (PartnerFinancials.partnerId ps0)
              then ps = PartnerFinancials.mk
                          (PartnerFinancials.partnerId ps0) (PartnerFinancials.name ps0)
                          (PartnerFinancials.revenue ps0)
                          (PartnerFinancials.expenseShare ps0)
                          (PartnerFinancials.taxableBase ps0)
                          (PartnerFinancials.corporateTaxShare ps0)
                          (PartnerFinancials.netProfitShare ps0)
                          (PartnerFinancials.dividendsTakenGross ps0 + gross)
                          (PartnerFinancials.dividendTaxPaid ps0 + gross * 0.05)
                          (PartnerFinancials.netProfitShare ps0
                           - (PartnerFinancials.dividendsTakenGross ps0 + gross))
              else ps = ps0)
              (Financials.partnerStats out0) (Financials.partnerStats out).
Proof.
  intros v gross. unfold DividendsView_handlePay. fold v. fold gross.
  destruct (negb (truthy v)).
  { eexists _, _, _. split; [reflexivity|]. done. }
  eexists _, _, _. split; [reflexivity|]. apply addDividend_effect.
Qed.

Lemma income_distributions_positive (form : IncomeForm) :
  Forall (fun d => (0 <? Distribution.amount d) = true)
    (income_distributions parseFloat form).
Proof.
  unfold income_distributions. induction (IncomeForm.splits form) as [|entry l IH];
    cbn [map List.filter]; [done|].
  match goal with |- context [if ?b then _ else _] => destruct b eqn:Hpos end; [|done].
  by constructor.
Qed.

(** X16. IncomeView: the shares that [handleSave] records are all greater
    than 0: an entry whose amount parses to 0, to a negative number or to
    [NaN] is dropped.  When the shares do not add up to the total within
    0.1 and the user declines the confirmation, nothing is recorded;
    otherwise one payment is recorded, after which [totalRevenue] has grown
    by [(parseFloat(amount) || 0) * rate] and the revenue of each partner by
    the first recorded share that names the partner. *)
Theorem IncomeView_handleSave_effect (now : string) (confirmed : bool) (form : IncomeForm)
    (state : AppState) (roster : list Partner) (rate : number) :
  let dists := income_distributions parseFloat form in
  Forall (fun d => (0 <? Distribution.amount d) = true) dists
  ∧ ∃ form' state' alerts,
      IncomeView_handleSave parseFloat now confirmed form state = (form', state', alerts)
      ∧ if negb (isBalanced parseFloat form) && negb confirmed
        then form' = form ∧ state' = state ∧ alerts = []
        else
          ∃ out0 out,
            computeFinancials state roster rate = Normal out0
            ∧ computeFinancials state' roster rate = Normal out
            ∧ FinancialSummary.totalRevenue (Financials.summary out)
              = FinancialSummary.totalRevenue (Financials.summary out0)
                + totalInput parseFloat form * rate_of (IncomeForm.currency form)
            ∧ FinancialSummary.totalExpenses (Financials.summary out)
              = FinancialSummary.totalExpenses (Financials.summary out0)
            ∧ Forall2 (fun ps0 ps =>
                PartnerFinancials.revenue ps
                = PartnerFinancials.revenue ps0
                  + match List.find (fun d => str_eq (Distribution.partnerId d)
                                                (PartnerFinancials.partnerId ps0)) dists with
                    | Some d => Distribution.amount d
                    | None => 0
                    end
                ∧ PartnerFinancials.expenseShare ps = PartnerFinancials.expenseShare ps0
                ∧ PartnerFinancials.dividendsTakenGross ps
                  = PartnerFinancials.dividendsTakenGross ps0
                ∧ PartnerFinancials.dividendTaxPaid ps = PartnerFinancials.dividendTaxPaid ps0)
                (Financials.partnerStats out0) (Financials.partnerStats out).
Proof.
  intros dists. split; [apply income_distributions_positive|].
  unfold IncomeView_handleSave.
  destruct (negb (isBalanced parseFloat form) && negb confirmed).
  { eexists _, _, _. split; [reflexivity|]. done. }
  eexists _, _, _. split; [reflexivity|]. apply addPayment_effect.
Qed.

(** X17. IncomeView validates nothing: saving the form while the amount
    does not parse to a number other than 0 and [NaN] and no share is
    entered records a payment of 0 without shares, and asks no
    confirmation. *)
Theorem IncomeView_handleSave_records_empty_form (now : string) (confirmed : bool)
    (form : IncomeForm) (state : AppState) :
  truthy (parseFloat (IncomeForm.amount form)) = false →
  IncomeForm.splits form = [] →
  IncomeView_handleSave parseFloat now confirmed form state
  = (IncomeForm.mk (IncomeForm.projectId form) "" BGN "" (IncomeForm.date form) [],
     addPayment now (IncomeForm.projectId form) 0 (IncomeForm.date form)
       (IncomeForm.desc form) [] state,
     ["Приходът е записан успешно (конвертиран в BGN)!"]).
Proof.
  intros Hv Hs. unfold IncomeView_handleSave, income_distributions, isBalanced, remaining,
    totalInput, currentDistributed, orElse.
  rewrite Hv, Hs. cbn [map reduce fold_left List.filter].
  change (abs (0 - 0) <? 0.1) with true. cbn [negb andb].
  by destruct (IncomeForm.currency form).
Qed.

End ViewHandlers.

Lemma IncomeView_handleSave_records_empty_form_witness :
  IncomeView_handleSave (fun _ => nan) "1700000000010" false
    (IncomeForm.mk "" "" BGN "" "2024-03-05" []) Samples.loss
  = (IncomeForm.mk "" "" BGN "" "2024-03-05" [],
     addPayment "1700000000010" "" 0 "2024-03-05" "" [] Samples.loss,
     ["Приходът е записан успешно (конвертиран в BGN)!"]).
Proof.
  apply (IncomeView_handleSave_records_empty_form (fun _ => nan) "1700000000010" false
           (IncomeForm.mk "" "" BGN "" "2024-03-05" []) Samples.loss).
  - reflexivity.
  - reflexivity.
Defined.

(** ** The tax rate *)

(** X18. The corporate tax rate reaches the tax figures only: with another
    rate the engine returns the same totals and the same taxable profit,
    and in every statement the same revenue, expense share, taxable base,
    [dividendsTakenGross] and [dividendTaxPaid].  The tax of a dividend is
    the one stamped on its record, whatever the rates are now. *)
Theorem rate_reaches_tax_figures_only (ledger : AppState) (roster : list Partner)
    (rate rate' : number) :
  ∃ out out',
    computeFinancials ledger roster rate = Normal out
    ∧ computeFinancials ledger roster rate' = Normal out'
    ∧ FinancialSummary.totalRevenue (Financials.summary out')
      = FinancialSummary.totalRevenue (Financials.summary out)
    ∧ FinancialSummary.totalExpenses (Financials.summary out')
      = FinancialSummary.totalExpenses (Financials.summary out)
    ∧ FinancialSummary.taxableProfit (Financials.summary out')
      = FinancialSummary.taxableProfit (Financials.summary out)
    ∧ Forall2 (fun ps ps' =>
        PartnerFinancials.partnerId ps' = PartnerFinancials.partnerId ps
        ∧ PartnerFinancials.revenue ps' = PartnerFinancials.revenue ps
        ∧ PartnerFinancials.expenseShare ps' = PartnerFinancials.expenseShare ps
        ∧ PartnerFinancials.taxableBase ps' = PartnerFinancials.taxableBase ps
        ∧ PartnerFinancials.dividendsTakenGross ps' = PartnerFinancials.dividendsTakenGross ps
        ∧ PartnerFinancials.dividendTaxPaid ps' = PartnerFinancials.dividendTaxPaid ps
        ∧ PartnerFinancials.dividendTaxPaid ps
          = sum_of (map DividendPayout.taxAmount
                      (dividends_of (PartnerFinancials.partnerId ps)
                         (AppState.dividends ledger))))
        (Financials.partnerStats out) (Financials.partnerStats out').
Proof.
  returns. split; [apply computeFinancials_eq|]. repeat (split; [done|]).
  cbn [financials_of Financials.partnerStats].
  apply Forall2_fmap, Forall_Forall2_diag, Forall_forall. intros p _. done.
Qed.
